(** * Polygon manager: validation and persistence pipeline

    A shallow embedding of the polygon service of the repository
    (settings, [JSONEncodedList], [PolygonRepository], [PolygonService],
    the request schema and the three handlers of the polygon
    controller), followed by the properties of the specification that
    concern it.

    Conventions of the embedding.

    - A Python [str] is a [string] whose characters are the code points
      0..255; [len] is [String.length].  The strings a JSON text encodes
      are sequences of code points, since an escape can name any.
    - Python values that can reach the service or come out of the JSON
      decoder are the type [pyval]; the service is dynamically typed and
      is modelled on all of them.
    - A finite [float] is identified with what [repr] prints for it: a
      sign, the shortest digit sequence that denotes it and the position
      of the decimal point.  [repr] lays these digits out and [float]
      reads a decimal lexeme back into them; that the digits identify
      the float is CPython's guarantee [float(repr(x)) == x].
      Comparisons are comparisons of the decimal values.  Where a text
      holds a decimal that is not the shortest one of its float, the
      decoder keeps the decimal as written and CPython rounds it; no
      text written by the encoder is of that kind.
    - An exception is a value of [exn]; a call that can raise returns a
      [result].  Code that touches the database threads the table
      explicitly.
    - The table [polygons] is the sequence of its rows in the order they
      were inserted; a scan of the table walks the primary key and a row
      inserted without a key gets one more than the largest key, as the
      default backend (SQLite) does. *)

From Stdlib Require Import ZArith NArith List Sorted Permutation.
From Stdlib Require Import String Ascii Bool Lia.
From Stdlib Require Import Decimal DecimalFacts DecimalN.
Import ListNotations.

Set Warnings "-register-all".

Local Open Scope string_scope.
Local Open Scope Z_scope.
Local Open Scope list_scope.

(** ** Python values *)

Module Py.

(** A [float]: not-a-number, an infinity, or a finite value given by its
    sign, its significant digits (most significant first) and the
    position [decpt] of the decimal point relative to the first digit;
    the value is [0.d1d2...dk * 10^decpt].  This is the triple CPython's
    [repr] obtains from the shortest-digits conversion. *)
Inductive pyfloat : Type :=
| FNan
| FInf (neg : bool)
| FFin (neg : bool) (ds : list digits) (decpt : Z).

Inductive pyval : Type :=
| VNone
| VBool (b : bool)
| VInt (z : Z)
| VFloat (f : pyfloat)
| VStr (cps : list N)
| VList (l : list pyval)
| VDict (kvs : list (list N * pyval)).

Inductive exn : Type :=
| ValueError (msg : string)
| TypeError (msg : string)
| IntegrityError
| HTTPException (status_code : Z) (detail : string).

Inductive result (A : Type) : Type :=
| Return (a : A)
| Raise (e : exn).

Arguments Return {A} a.
Arguments Raise {A} e.

Definition bind {A B : Type} (m : result A) (k : A -> result B) : result B :=
  match m with
  | Return a => k a
  | Raise e => Raise e
  end.

(** [raise_if c e] is the statement [if c: raise e]. *)
Definition raise_if (c : bool) (e : exn) : result unit :=
  if c then Raise e else Return tt.

End Py.
Export Py.

Notation "x <- m ;; k" := (bind m (fun x => k))
  (at level 61, m at next level, right associativity).
Notation "m ;;; k" := (bind m (fun _ => k))
  (at level 61, right associativity).

(** ** Decimal digits *)

Module Digits.

Definition ascii_of_digit (d : digits) : ascii :=
  match d with
  | d0 => "0" | d1 => "1" | d2 => "2" | d3 => "3" | d4 => "4"
  | d5 => "5" | d6 => "6" | d7 => "7" | d8 => "8" | d9 => "9"
  end%char.

Definition digit_of_ascii (c : ascii) : option digits :=
  match c with
  | "0" => Some d0 | "1" => Some d1 | "2" => Some d2 | "3" => Some d3
  | "4" => Some d4 | "5" => Some d5 | "6" => Some d6 | "7" => Some d7
  | "8" => Some d8 | "9" => Some d9
  | _ => None
  end%char.

Definition is_zero (d : digits) : bool :=
  match d with d0 => true | _ => false end.

(** The decimal digits of a natural number, as [str(n)] writes them. *)
Definition N_digits (n : N) : list digits := to_list (N.to_uint n).

(** The number a digit sequence denotes (leading zeros allowed). *)
Definition digits_val (ds : list digits) : N := N.of_uint (of_list ds).

Definition show_digits (ds : list digits) : list ascii :=
  map ascii_of_digit ds.

(** [str(z)] for an [int]. *)
Definition int_str (z : Z) : list ascii :=
  (if z <? 0 then ["-"%char] else []) ++ show_digits (N_digits (Z.abs_N z)).

(** The longest prefix of digits of a text, and the rest. *)
Fixpoint take_digits (s : list ascii) : list digits * list ascii :=
  match s with
  | [] => ([], [])
  | c :: r =>
      match digit_of_ascii c with
      | Some d => let (ds, r') := take_digits r in (d :: ds, r')
      | None => ([], s)
      end
  end.

End Digits.
Export Digits.

(** ** Floats *)

Module Float.

Definition zeros (n : nat) : list digits := repeat d0 n.

(** The exponent of the scientific notation, C's ["%+.02d"]. *)
Definition exp_str (e : Z) : list ascii :=
  (if e <? 0 then "-"%char else "+"%char)
    :: show_digits
         (let ds := N_digits (Z.abs_N e) in
          match ds with [_] => d0 :: ds | _ => ds end).

(** The digits and point of a finite float, as [repr] lays them out:
    scientific notation when [decpt <= -4] or [decpt > 16], otherwise
    positional notation with at least one digit on each side of the
    point. *)
Definition layout (ds : list digits) (decpt : Z) : list ascii :=
  if (decpt <=? -4) || (decpt >? 16) then
    match ds with
    | [] => []
    | d :: tl =>
        ascii_of_digit d
          :: match tl with
             | [] => []
             | _ => "."%char :: show_digits tl
             end
          ++ "e"%char :: exp_str (decpt - 1)
    end
  else if decpt <=? 0 then
    "0"%char :: "."%char :: show_digits (zeros (Z.to_nat (- decpt)) ++ ds)
  else
    let n := Z.to_nat decpt in
    if (n <? List.length ds)%nat then
      show_digits (firstn n ds) ++ "."%char :: show_digits (skipn n ds)
    else
      show_digits (ds ++ zeros (n - List.length ds)) ++ ["."; "0"]%char.

Definition sign_str (neg : bool) : list ascii :=
  if neg then ["-"%char] else [].

(** [repr(f)], which is also [str(f)]. *)
Definition float_repr (f : pyfloat) : list ascii :=
  match f with
  | FNan => list_ascii_of_string "nan"
  | FInf neg => sign_str neg ++ list_ascii_of_string "inf"
  | FFin neg ds decpt => sign_str neg ++ layout ds decpt
  end.

(** [float(lexeme)] for a decimal lexeme with digits [ds] (integer part
    followed by fraction) whose integer part has [pt] digits more than
    the exponent subtracts: leading and trailing zeros carry no
    information and are dropped. *)
Fixpoint strip_leading (ds : list digits) (pt : Z) : list digits * Z :=
  match ds with
  | d0 :: r => strip_leading r (pt - 1)
  | _ => (ds, pt)
  end.

Fixpoint strip_trailing (ds : list digits) : list digits :=
  match ds with
  | [] => []
  | d :: r =>
      match strip_trailing r with
      | [] => if is_zero d then [] else [d]
      | r' => d :: r'
      end
  end.

Definition float_of_decimal (neg : bool) (ds : list digits) (pt : Z)
  : pyfloat :=
  let (ds1, pt1) := strip_leading ds pt in
  match strip_trailing ds1 with
  | [] => FFin neg [d0] 1
  | ds2 => FFin neg ds2 pt1
  end.

(** The floats [repr] can be asked about: zero is the single digit 0
    with the point after it, any other value starts and ends with a
    nonzero digit. *)
Definition wf_float (f : pyfloat) : Prop :=
  match f with
  | FNan | FInf _ => True
  | FFin _ ds decpt =>
      (ds = [d0] /\ decpt = 1) \/
      (exists d tl, ds = d :: tl /\ is_zero d = false /\
                    is_zero (last ds d0) = false)
  end.

End Float.
Export Float.

(** ** Numbers: comparison across [bool], [int] and [float] *)

Module Num.

(** The numeric value behind a [bool], an [int] or a [float]: not a
    number, an infinity, or the decimal [m * 10^e]. *)
Inductive number : Type :=
| NNan
| NInf (neg : bool)
| NDec (m e : Z).

Definition number_of_float (f : pyfloat) : number :=
  match f with
  | FNan => NNan
  | FInf neg => NInf neg
  | FFin neg ds decpt =>
      NDec ((if neg then -1 else 1) * Z.of_N (digits_val ds))
           (decpt - Z.of_nat (List.length ds))
  end.

(** [isinstance(v, (int, float))]; a [bool] is an [int]. *)
Definition number_of (v : pyval) : option number :=
  match v with
  | VBool b => Some (NDec (if b then 1 else 0) 0)
  | VInt z => Some (NDec z 0)
  | VFloat f => Some (number_of_float f)
  | _ => None
  end.

(** Both decimals brought to the smaller exponent. *)
Definition align (m1 e1 m2 e2 : Z) : Z * Z :=
  let e := Z.min e1 e2 in (m1 * 10 ^ (e1 - e), m2 * 10 ^ (e2 - e)).

(** [a == b] *)
Definition num_eqb (a b : number) : bool :=
  match a, b with
  | NNan, _ | _, NNan => false
  | NInf s, NInf t => Bool.eqb s t
  | NInf _, NDec _ _ | NDec _ _, NInf _ => false
  | NDec m1 e1, NDec m2 e2 => let (x, y) := align m1 e1 m2 e2 in x =? y
  end.

(** [a > b] *)
Definition num_gtb (a b : number) : bool :=
  match a, b with
  | NNan, _ | _, NNan => false
  | NInf s, NInf t => negb s && t
  | NInf s, NDec _ _ => negb s
  | NDec _ _, NInf t => t
  | NDec m1 e1, NDec m2 e2 => let (x, y) := align m1 e1 m2 e2 in x >? y
  end.

(** [abs(a)] *)
Definition num_abs (a : number) : number :=
  match a with
  | NNan => NNan
  | NInf _ => NInf false
  | NDec m e => NDec (Z.abs m) e
  end.

End Num.
Export Num.

(** ** Truth value, [len] and iteration of a value *)

Module Dyn.

(** [bool(v)], as [if v:] and [not v] evaluate it. *)
Definition truthy (v : pyval) : bool :=
  match v with
  | VNone => false
  | VBool b => b
  | VInt z => negb (z =? 0)
  | VFloat f => negb (num_eqb (number_of_float f) (NDec 0 0))
  | VStr cps => negb (Nat.eqb (List.length cps) 0)
  | VList l => negb (Nat.eqb (List.length l) 0)
  | VDict kvs => negb (Nat.eqb (List.length kvs) 0)
  end.

Definition no_len : string := "object has no len()".
Definition not_iterable : string := "object is not iterable".

(** [len(v)] *)
Definition py_len (v : pyval) : result Z :=
  match v with
  | VStr cps => Return (Z.of_nat (List.length cps))
  | VList l => Return (Z.of_nat (List.length l))
  | VDict kvs => Return (Z.of_nat (List.length kvs))
  | _ => Raise (TypeError no_len)
  end.

(** The values [for x in v] visits. *)
Definition py_iter (v : pyval) : result (list pyval) :=
  match v with
  | VStr cps => Return (map (fun c => VStr [c]) cps)
  | VList l => Return l
  | VDict kvs => Return (map (fun kv => VStr (fst kv)) kvs)
  | _ => Raise (TypeError not_iterable)
  end.

(** A [for] loop whose body can raise: the first exception ends it. *)
Fixpoint for_each {A : Type} (body : A -> result unit) (l : list A)
  : result unit :=
  match l with
  | [] => Return tt
  | x :: r => body x ;;; for_each body r
  end.

End Dyn.
Export Dyn.

(** ** The [json] module: [dumps] and [loads] with their defaults *)

Module Json.

Definition dquote : ascii := ascii_of_nat 34.
Definition backslash : ascii := ascii_of_nat 92.

Definition chars (s : string) : list ascii := list_ascii_of_string s.

(** *** Encoder *)

Definition hex_digit (n : N) : ascii :=
  nth (N.to_nat n) (chars "0123456789abcdef") "0"%char.

Definition hex4 (n : N) : list ascii :=
  [hex_digit (n / 4096 mod 16); hex_digit (n / 256 mod 16);
   hex_digit (n / 16 mod 16); hex_digit (n mod 16)]%N.

Definition u_escape (n : N) : list ascii :=
  backslash :: "u"%char :: hex4 n.

(** One character of a string, with [ensure_ascii]. *)
Definition escape_char (c : N) : list ascii :=
  (if c =? 34 then [backslash; dquote]
   else if c =? 92 then [backslash; backslash]
   else if c =? 10 then [backslash; "n"%char]
   else if c =? 13 then [backslash; "r"%char]
   else if c =? 9 then [backslash; "t"%char]
   else if c =? 12 then [backslash; "f"%char]
   else if c =? 8 then [backslash; "b"%char]
   else if (32 <=? c) && (c <=? 126) then [ascii_of_N c]
   else if c <? 65536 then u_escape c
   else let v := c - 65536 in
        u_escape (55296 + v / 1024 mod 1024) ++ u_escape (56320 + v mod 1024))%N.

Definition encode_str (cps : list N) : list ascii :=
  dquote :: flat_map escape_char cps ++ [dquote].

(** A float: [repr], except that the three non-finite values have
    JavaScript names. *)
Definition encode_float (f : pyfloat) : list ascii :=
  match f with
  | FNan => chars "NaN"
  | FInf false => chars "Infinity"
  | FInf true => chars "-Infinity"
  | FFin _ _ _ => float_repr f
  end.

(** [", ".join(items)] *)
Fixpoint join (items : list (list ascii)) : list ascii :=
  match items with
  | [] => []
  | [x] => x
  | x :: r => x ++ chars ", " ++ join r
  end.

Fixpoint encode (v : pyval) : list ascii :=
  match v with
  | VNone => chars "null"
  | VBool true => chars "true"
  | VBool false => chars "false"
  | VInt z => int_str z
  | VFloat f => encode_float f
  | VStr cps => encode_str cps
  | VList l => "["%char :: join (map encode l) ++ ["]"%char]
  | VDict kvs =>
      "{"%char
        :: join (map (fun kv => encode_str (fst kv) ++ chars ": "
                                  ++ encode (snd kv)) kvs)
        ++ ["}"%char]
  end.

(** [json.dumps(v)] *)
Definition dumps (v : pyval) : string := string_of_list_ascii (encode v).

(** *** Decoder *)

Definition is_ws (c : ascii) : bool :=
  match c with
  | " " | "009" | "010" | "013" => true
  | _ => false
  end%char.

Fixpoint skip_ws (s : list ascii) : list ascii :=
  match s with
  | c :: r => if is_ws c then skip_ws r else s
  | [] => []
  end.

(** [s] without the prefix [p], when it starts with it. *)
Fixpoint strip_prefix (p s : list ascii) : option (list ascii) :=
  match p, s with
  | [], _ => Some s
  | a :: p', b :: s' => if Ascii.eqb a b then strip_prefix p' s' else None
  | _ :: _, [] => None
  end.

Definition hex_val (c : ascii) : option N :=
  let n := N_of_ascii c in
  (if (48 <=? n) && (n <=? 57) then Some (n - 48)
   else if (97 <=? n) && (n <=? 102) then Some (n - 87)
   else if (65 <=? n) && (n <=? 70) then Some (n - 55)
   else None)%N.

Definition hex4_val (a b c d : ascii) : option N :=
  match hex_val a, hex_val b, hex_val c, hex_val d with
  | Some x, Some y, Some z, Some w => Some (((x * 16 + y) * 16 + z) * 16 + w)%N
  | _, _, _, _ => None
  end.

Definition simple_escape (c : ascii) : option N :=
  match c with
  | "\" => Some 92 | "/" => Some 47 | "b" => Some 8 | "f" => Some 12
  | "n" => Some 10 | "r" => Some 13 | "t" => Some 9
  | _ => if Ascii.eqb c dquote then Some 34 else None
  end%char%N.

Definition cons_cp (c : N) (r : option (list N * list ascii))
  : option (list N * list ascii) :=
  match r with
  | Some (cps, rest) => Some (c :: cps, rest)
  | None => None
  end.

(** The low half of a surrogate pair written as a second escape. *)
Definition low_surrogate (s : list ascii) : option (N * list ascii) :=
  match s with
  | b :: "u"%char :: h1 :: h2 :: h3 :: h4 :: r =>
      if Ascii.eqb b backslash then
        match hex4_val h1 h2 h3 h4 with
        | Some n => if ((56320 <=? n) && (n <=? 57343))%N
                    then Some (n, r) else None
        | None => None
        end
      else None
  | _ => None
  end.

(** The body of a string after its opening quote, in strict mode. *)
Fixpoint scanstring (s : list ascii) : option (list N * list ascii) :=
  match s with
  | [] => None
  | c :: r =>
      if Ascii.eqb c dquote then Some ([], r)
      else if Ascii.eqb c backslash then
        match r with
        | "u"%char :: h1 :: h2 :: h3 :: h4 :: r' =>
            match hex4_val h1 h2 h3 h4 with
            | None => None
            | Some n =>
                match (if ((55296 <=? n) && (n <=? 56319))%N
                       then low_surrogate r' else None) with
                | Some (n2, _) =>
                    match r' with
                    | _ :: _ :: _ :: _ :: _ :: _ :: r'' =>
                        cons_cp (65536 + (n - 55296) * 1024 + (n2 - 56320))%N
                                (scanstring r'')
                    | _ => None
                    end
                | None => cons_cp n (scanstring r')
                end
            end
        | e :: r' =>
            match simple_escape e with
            | Some n => cons_cp n (scanstring r')
            | None => None
            end
        | [] => None
        end
      else if (N_of_ascii c <? 32)%N then None
      else cons_cp (N_of_ascii c) (scanstring r)
  end.

(** A number lexeme: sign, integer part, and the fraction and exponent
    when present. *)
Record lexeme : Type := mkLexeme {
  lex_neg : bool;
  lex_int : list digits;
  lex_frac : option (list digits);
  lex_exp : option Z
}.

(** An optional minus sign, then a single 0 or a nonzero digit followed
    by digits. *)
Definition match_int (s : list ascii) : option (bool * list digits * list ascii) :=
  let (neg, s1) := match s with
                   | "-"%char :: r => (true, r)
                   | _ => (false, s)
                   end in
  match s1 with
  | c :: r =>
      match digit_of_ascii c with
      | Some d0 => Some (neg, [d0], r)
      | Some d => let (ds, r') := take_digits r in Some (neg, d :: ds, r')
      | None => None
      end
  | [] => None
  end.

(** A point followed by at least one digit, when present. *)
Definition match_frac (s : list ascii) : option (list digits) * list ascii :=
  match s with
  | "."%char :: r =>
      match take_digits r with
      | ([], _) => (None, s)
      | (ds, r') => (Some ds, r')
      end
  | _ => (None, s)
  end.

(** An [e] or [E], an optional sign and at least one digit, when
    present. *)
Definition match_exp (s : list ascii) : option Z * list ascii :=
  match s with
  | c :: r =>
      if Ascii.eqb c "e" || Ascii.eqb c "E" then
        let (neg, r1) := match r with
                         | "-"%char :: t => (true, t)
                         | "+"%char :: t => (false, t)
                         | _ => (false, r)
                         end in
        match take_digits r1 with
        | ([], _) => (None, s)
        | (ds, r') =>
            (Some ((if neg then -1 else 1) * Z.of_N (digits_val ds)), r')
        end
      else (None, s)
  | [] => (None, s)
  end.

Definition match_number (s : list ascii) : option (lexeme * list ascii) :=
  match match_int s with
  | None => None
  | Some (neg, ds, r1) =>
      let (frac, r2) := match_frac r1 in
      let (ex, r3) := match_exp r2 in
      Some (mkLexeme neg ds frac ex, r3)
  end.

(** [int(lexeme)] without fraction and exponent, [float(lexeme)] with
    one of them. *)
Definition number_value (x : lexeme) : pyval :=
  match lex_frac x, lex_exp x with
  | None, None =>
      VInt ((if lex_neg x then -1 else 1) * Z.of_N (digits_val (lex_int x)))
  | frac, ex =>
      let fr := match frac with Some ds => ds | None => [] end in
      let e := match ex with Some e => e | None => 0 end in
      VFloat (float_of_decimal (lex_neg x) (lex_int x ++ fr)
                               (Z.of_nat (List.length (lex_int x)) + e))
  end.

Definition scanner : Type := list ascii -> option (pyval * list ascii).

(** The items of an array after its first one is known to exist. *)
Fixpoint array_items (scan : scanner) (n : nat) (s : list ascii)
  : option (list pyval * list ascii) :=
  match n with
  | O => None
  | S n' =>
      match scan s with
      | None => None
      | Some (v, r) =>
          match skip_ws r with
          | "]"%char :: r' => Some ([v], r')
          | ","%char :: r' =>
              match array_items scan n' (skip_ws r') with
              | Some (vs, r'') => Some (v :: vs, r'')
              | None => None
              end
          | _ => None
          end
      end
  end.

Definition JSONArray (scan : scanner) (n : nat) (s : list ascii)
  : option (pyval * list ascii) :=
  match skip_ws s with
  | "]"%char :: r => Some (VList [], r)
  | s' =>
      match array_items scan n s' with
      | Some (vs, r) => Some (VList vs, r)
      | None => None
      end
  end.

(** The pairs of an object, from the opening quote of a key. *)
Fixpoint object_pairs (scan : scanner) (n : nat) (s : list ascii)
  : option (list (list N * pyval) * list ascii) :=
  match n with
  | O => None
  | S n' =>
      match s with
      | q :: r0 =>
          if Ascii.eqb q dquote then
            match scanstring r0 with
            | None => None
            | Some (key, r1) =>
                match skip_ws r1 with
                | ":"%char :: r2 =>
                    match scan (skip_ws r2) with
                    | None => None
                    | Some (v, r3) =>
                        match skip_ws r3 with
                        | "}"%char :: r4 => Some ([(key, v)], r4)
                        | ","%char :: r4 =>
                            match object_pairs scan n' (skip_ws r4) with
                            | Some (kvs, r5) => Some ((key, v) :: kvs, r5)
                            | None => None
                            end
                        | _ => None
                        end
                    end
                | _ => None
                end
            end
          else None
      | [] => None
      end
  end.

Definition JSONObject (scan : scanner) (n : nat) (s : list ascii)
  : option (pyval * list ascii) :=
  match skip_ws s with
  | "}"%char :: r => Some (VDict [], r)
  | s' =>
      match object_pairs scan n s' with
      | Some (kvs, r) => Some (VDict kvs, r)
      | None => None
      end
  end.

Definition literal (p : string) (v : pyval) (s : list ascii)
  : option (pyval * list ascii) :=
  match strip_prefix (chars p) s with
  | Some r => Some (v, r)
  | None => None
  end.

Definition scan_number (s : list ascii) : option (pyval * list ascii) :=
  match match_number s with
  | Some (x, r) => Some (number_value x, r)
  | None => None
  end.

(** One value at the head of the text.  [fuel] bounds the nesting and
    the number of items of a container; the length of the text is
    always enough. *)
Fixpoint scan_once (fuel : nat) (s : list ascii)
  : option (pyval * list ascii) :=
  match fuel with
  | O => None
  | S fuel' =>
      match s with
      | [] => None
      | c :: r =>
          if Ascii.eqb c dquote then
            match scanstring r with
            | Some (cps, r') => Some (VStr cps, r')
            | None => None
            end
          else
            match c with
            | "{" => JSONObject (scan_once fuel') (List.length r) r
            | "[" => JSONArray (scan_once fuel') (List.length r) r
            | "n" => literal "null" VNone s
            | "t" => literal "true" (VBool true) s
            | "f" => literal "false" (VBool false) s
            | "N" => literal "NaN" (VFloat FNan) s
            | "I" => literal "Infinity" (VFloat (FInf false)) s
            | "-" =>
                match scan_number s with
                | Some x => Some x
                | None => literal "-Infinity" (VFloat (FInf true)) s
                end
            | _ => scan_number s
            end%char
      end
  end.

(** [json.loads(text)]: one value between optional white space and
    nothing else; [None] stands for [JSONDecodeError]. *)
Definition loads (text : string) : option pyval :=
  let s := chars text in
  match scan_once (S (List.length s)) (skip_ws s) with
  | Some (v, r) =>
      match skip_ws r with
      | [] => Some v
      | _ => None
      end
  | None => None
  end.

End Json.

(** ** Strings *)

Module Str.

(** The characters [str.strip] removes, among the code points below
    256: the ASCII white space and separators, NEL and the no-break
    space. *)
Definition is_space (c : ascii) : bool :=
  let n := N_of_ascii c in
  ((9 <=? n) && (n <=? 13) || (28 <=? n) && (n <=? 32)
   || (n =? 133) || (n =? 160))%N.

Fixpoint lstrip (s : string) : string :=
  match s with
  | String c r => if is_space c then lstrip r else s
  | EmptyString => EmptyString
  end.

Fixpoint rstrip (s : string) : string :=
  match s with
  | EmptyString => EmptyString
  | String c r =>
      match rstrip r with
      | EmptyString => if is_space c then EmptyString else String c EmptyString
      | r' => String c r'
      end
  end.

(** [s.strip()] *)
Definition strip (s : string) : string := rstrip (lstrip s).

(** [not s] for a string. *)
Definition is_empty (s : string) : bool :=
  match s with EmptyString => true | String _ _ => false end.

(** [len(s)] *)
Definition len (s : string) : Z := Z.of_nat (String.length s).

(** The text an f-string substitutes for an [int] and for a [float]. *)
Definition str_int (z : Z) : string := string_of_list_ascii (int_str z).
Definition str_float (f : pyfloat) : string :=
  string_of_list_ascii (float_repr f).


End Str.
Export Str.

(** ** app/config/settings.py *)

Record Settings : Type := mkSettings {
  max_coordinate : pyfloat;
  max_name_length : Z;
  max_points_count : Z;
  min_points_count : Z;
  api_delay_seconds : Z
}.

(** The defaults of the class [Settings]. *)
Definition settings : Settings := {|
  max_coordinate := FFin false [d1] 7;
  max_name_length := 255;
  max_points_count := 10000;
  min_points_count := 3;
  api_delay_seconds := 5
|}.

(** ** app/models/polygon.py *)

Module JSONEncodedList.

(** A bound parameter or a fetched column: [None] is SQL NULL. *)
Definition process_bind_param (value : pyval) : option string :=
  match value with
  | VNone => None
  | _ => Some (Json.dumps value)
  end.

(** The two handlers [except json.JSONDecodeError] and
    [except Exception] return the same value; the decoder of this
    development raises nothing but the former. *)
Definition process_result_value (value : option string) : pyval :=
  match value with
  | None => VNone
  | Some text =>
      if is_empty (strip text) then VNone
      else
        match Json.loads text with
        | Some (VList data) => VList data
        | Some _ => VList []
        | None => VList []
        end
  end.

End JSONEncodedList.

(** The entity [Polygon]; [id] is [None] until the row is inserted. *)
Record Polygon : Type := mkPolygon {
  id : option Z;
  name : string;
  points : pyval
}.

(** ** The table behind the session *)

Module Table.

(** A row of [polygons]: the primary key, the name and the text column
    holding the points. *)
Record row : Type := mkRow {
  row_id : Z;
  row_name : string;
  row_points : string
}.

(** The rows in the order of their insertion. *)
Definition Session : Type := list row.

Fixpoint insert_by_id (r : row) (t : list row) : list row :=
  match t with
  | [] => [r]
  | x :: t' =>
      if row_id r <=? row_id x then r :: t else x :: insert_by_id r t'
  end.

(** A full scan walks the primary key upwards. *)
Definition scan (db : Session) : list row :=
  fold_right insert_by_id [] db.

(** The key given to a row inserted without one: 1 in an empty table,
    otherwise one more than the largest key in use. *)
Definition next_id (db : Session) : Z :=
  match db with
  | [] => 1
  | r :: t => 1 + fold_right (fun x m => Z.max (row_id x) m) (row_id r) t
  end.

Definition has_id (i : Z) (r : row) : bool := row_id r =? i.

(** The entity loaded from a row: the points column goes through
    [process_result_value]. *)
Definition load (r : row) : Polygon := {|
  id := Some (row_id r);
  name := row_name r;
  points := JSONEncodedList.process_result_value (Some (row_points r))
|}.

End Table.
Export Table.

(** ** app/database/repository.py *)

Module PolygonRepository.

Definition find_all (db : Session) : list Polygon :=
  map load (scan db).

Definition find_by_id (db : Session) (polygon_id : Z) : option Polygon :=
  hd_error (map load (filter (has_id polygon_id) (scan db))).

(** [add], [commit] and [refresh]: the row is inserted with the points
    bound through [process_bind_param] and the entity is read back.  A
    NULL in the points column or a key already in use violates a
    constraint of the table and nothing is inserted. *)
Definition save (db : Session) (polygon : Polygon)
  : Session * result Polygon :=
  match JSONEncodedList.process_bind_param (points polygon) with
  | None => (db, Raise IntegrityError)
  | Some text =>
      let i := match id polygon with
               | Some i => i
               | None => next_id db
               end in
      if existsb (has_id i) db then (db, Raise IntegrityError)
      else
        let r := {| row_id := i; row_name := name polygon;
                    row_points := text |} in
        (db ++ [r], Return (load r))
  end.

Definition delete_by_id (db : Session) (polygon_id : Z) : Session * Z :=
  (filter (fun r => negb (has_id polygon_id r)) db,
   Z.of_nat (List.length (filter (has_id polygon_id) db))).

Definition count (db : Session) : Z := Z.of_nat (List.length db).

End PolygonRepository.

(** ** app/services/polygon_service.py *)

Module PolygonService.

Section WithSettings.

Variable cfg : Settings.

Definition MAX_NAME_LENGTH : Z := max_name_length cfg.
Definition MAX_POINTS_COUNT : Z := max_points_count cfg.
Definition MAX_COORDINATE : pyfloat := max_coordinate cfg.

(** [time.sleep] changes nothing that is observed here, but it refuses a
    negative length. *)
Definition _add_delay : result unit :=
  raise_if (api_delay_seconds cfg <? 0)
           (ValueError "sleep length must be non-negative").

Definition too_large_message : string :=
  ("Coordinate value too large. Maximum allowed: "
     ++ str_float MAX_COORDINATE)%string.

Definition too_many_message : string :=
  ("Too many points. Maximum allowed: " ++ str_int MAX_POINTS_COUNT)%string.

Definition name_too_long_message : string :=
  ("Polygon name too long. Maximum allowed: " ++ str_int MAX_NAME_LENGTH
     ++ " characters")%string.

(** The body of [for coordinate in point]. *)
Definition check_coordinate (coordinate : pyval) : result unit :=
  match coordinate with
  | VNone => Raise (ValueError "Coordinate cannot be null")
  | _ =>
      match number_of coordinate with
      | None => Raise (ValueError "Coordinate must be a number")
      | Some x =>
          raise_if (negb (num_eqb x x))
                   (ValueError "Coordinate cannot be NaN") ;;;
          raise_if (num_eqb x (NInf false) || num_eqb x (NInf true))
                   (ValueError "Coordinate cannot be Infinite") ;;;
          raise_if (num_gtb (num_abs x) (number_of_float MAX_COORDINATE))
                   (ValueError too_large_message)
      end
  end.

(** The body of [for point in points]. *)
Definition check_point (point : pyval) : result unit :=
  match point with
  | VNone =>
      Raise (ValueError "Each point must have exactly 2 coordinates [x, y]")
  | _ =>
      n <- py_len point ;;
      raise_if (negb (n =? 2))
               (ValueError
                  "Each point must have exactly 2 coordinates [x, y]") ;;;
      coordinates <- py_iter point ;;
      for_each check_coordinate coordinates
  end.

Definition _validate_points (points : pyval) : result unit :=
  n <- py_len points ;;
  raise_if (n >? MAX_POINTS_COUNT) (ValueError too_many_message) ;;;
  items <- py_iter points ;;
  for_each check_point items.

Definition get_all_polygons (db : Session) : Session * result (list Polygon) :=
  match _add_delay with
  | Raise e => (db, Raise e)
  | Return _ => (db, Return (PolygonRepository.find_all db))
  end.

(** Everything [create_polygon] does before it builds the entity: the
    argument of the first log line (an f-string is evaluated whatever the
    log level), the delay, and the checks in their order. *)
Definition create_checks (name : string) (points : pyval) : result unit :=
  (if truthy points then py_len points else Return 0) ;;;
  _add_delay ;;;
  raise_if (is_empty name || is_empty (strip name))
           (ValueError "Polygon name is required") ;;;
  raise_if (len name >? MAX_NAME_LENGTH) (ValueError name_too_long_message) ;;;
  raise_if (negb (truthy points))
           (ValueError "Polygon points are required") ;;;
  n <- py_len points ;;
  raise_if (n <? 3) (ValueError "Polygon must have at least 3 points") ;;;
  _validate_points points.

Definition create_polygon (db : Session) (name : string) (points : pyval)
  : Session * result Polygon :=
  match create_checks name points with
  | Raise e => (db, Raise e)
  | Return _ =>
      let new_polygon := {| id := None; name := name; points := points |} in
      PolygonRepository.save db new_polygon
  end.

Definition delete_polygon (db : Session) (polygon_id : Z)
  : Session * result bool :=
  match _add_delay with
  | Raise e => (db, Raise e)
  | Return _ =>
      let (db', deleted_count) := PolygonRepository.delete_by_id db polygon_id in
      let deleted := deleted_count >? 0 in
      (db', Return deleted)
  end.

End WithSettings.

End PolygonService.

(** ** app/schemas/polygon_schema.py *)

Module Schema.

(** The request after the framework has read its body: a string and a
    list of lists of floats. *)
Record CreatePolygonRequest : Type := mkRequest {
  req_name : string;
  req_points : list (list pyfloat)
}.

Definition validate_name (v : string) : result string :=
  raise_if (is_empty v || is_empty (strip v))
           (ValueError "Polygon name is required") ;;;
  raise_if (len v >? 255)
           (ValueError
              "Polygon name too long. Maximum allowed: 255 characters") ;;;
  Return v.

Definition is_nan (f : pyfloat) : bool :=
  match f with FNan => true | _ => false end.

Definition is_inf (f : pyfloat) : bool :=
  match f with FInf _ => true | _ => false end.

Definition validate_coord (coord : pyfloat) : result unit :=
  raise_if (is_nan coord) (ValueError "Coordinate cannot be NaN") ;;;
  raise_if (is_inf coord) (ValueError "Coordinate cannot be Infinite").

Definition validate_point (point : list pyfloat) : result unit :=
  raise_if (negb (Nat.eqb (List.length point) 2))
           (ValueError "Each point must have exactly 2 coordinates [x, y]") ;;;
  for_each validate_coord point.

Definition validate_points (v : list (list pyfloat))
  : result (list (list pyfloat)) :=
  raise_if (Nat.eqb (List.length v) 0) (ValueError "Points are required") ;;;
  raise_if (Nat.ltb (List.length v) 3)
           (ValueError "Polygon must have at least 3 points") ;;;
  for_each validate_point v ;;;
  Return v.

(** The constraints of the two [Field]s, then the field validators. *)
Definition validate (r : CreatePolygonRequest) : result unit :=
  raise_if (len (req_name r) <? 1)
           (ValueError "String should have at least 1 character") ;;;
  raise_if (len (req_name r) >? 255)
           (ValueError "String should have at most 255 characters") ;;;
  raise_if (Nat.ltb (List.length (req_points r)) 3)
           (ValueError "List should have at least 3 items") ;;;
  validate_name (req_name r) ;;;
  validate_points (req_points r) ;;;
  Return tt.

(** The value the handler passes on as [request.points]. *)
Definition points_value (r : CreatePolygonRequest) : pyval :=
  VList (map (fun p => VList (map VFloat p)) (req_points r)).

End Schema.
Export Schema.

(** ** app/controllers/polygon_controller.py *)

Module Controller.

Inductive content : Type :=
| PolygonList (l : list Polygon)
| PolygonBody (p : Polygon)
| DeleteBody (message : string) (deleted_id : Z)
| Detail (detail : string).

Record Response : Type := mkResponse {
  status : Z;
  body : content
}.

(** What the framework sends for a handler decorated with the success
    status [ok]: the returned value, or the status and detail of the
    [HTTPException] it raised. *)
Definition respond {A : Type} (ok : Z) (wrap : A -> content) (r : result A)
  : Response :=
  match r with
  | Return a => mkResponse ok (wrap a)
  | Raise (HTTPException code detail) => mkResponse code (Detail detail)
  | Raise _ => mkResponse 500 (Detail "Internal Server Error")
  end.

Section WithSettings.

Variable cfg : Settings.

Definition get_all_polygons (db : Session)
  : Session * result (list Polygon) :=
  match PolygonService.get_all_polygons cfg db with
  | (db', Return polygons) => (db', Return polygons)
  | (db', Raise _) =>
      (db', Raise (HTTPException 500 "Failed to fetch polygons"))
  end.

Definition create_polygon (request : CreatePolygonRequest) (db : Session)
  : Session * result Polygon :=
  match PolygonService.create_polygon cfg db (req_name request)
                                      (points_value request) with
  | (db', Return polygon) => (db', Return polygon)
  | (db', Raise (ValueError e)) => (db', Raise (HTTPException 400 e))
  | (db', Raise _) =>
      (db', Raise (HTTPException 500 "Failed to create polygon"))
  end.

Definition delete_polygon (polygon_id : Z) (db : Session)
  : Session * result content :=
  match PolygonService.delete_polygon cfg db polygon_id with
  | (db', Return deleted) =>
      if deleted then
        (db', Return (DeleteBody "Polygon deleted successfully" polygon_id))
      else (db', Raise (HTTPException 404 "Polygon not found"))
  | (db', Raise (HTTPException code detail)) =>
      (db', Raise (HTTPException code detail))
  | (db', Raise _) =>
      (db', Raise (HTTPException 500 "Failed to delete polygon"))
  end.


(** POST /api/polygons: the body is validated against the schema before
    the handler runs; a body that fails is answered 422. *)
Definition POST_polygons (request : CreatePolygonRequest) (db : Session)
  : Session * Response :=
  match Schema.validate request with
  | Raise (ValueError e) => (db, mkResponse 422 (Detail e))
  | Raise _ => (db, mkResponse 500 (Detail "Internal Server Error"))
  | Return _ =>
      let (db', r) := create_polygon request db in
      (db', respond 201 PolygonBody r)
  end.


End WithSettings.

End Controller.

(** * Properties *)

(** ** What an input must satisfy to be valid *)

Section Validity.

Variable cfg : Settings.

(** The delay is one [time.sleep] accepts. *)
Definition delay_ok : Prop := 0 <= api_delay_seconds cfg.

(** The name is not blank once trimmed. *)
Definition non_blank (name : string) : Prop :=
  is_empty (strip name) = false.

(** [a <= b] on numbers. *)
Definition num_leb (a b : number) : bool := num_gtb b a || num_eqb a b.

(** A coordinate: a [bool], an [int] or a finite [float], of magnitude
    at most the configured maximum.  The digits of a float are those
    [repr] works from, which is what [wf_float] says. *)
Definition finite_number (c : pyval) : Prop :=
  match c with
  | VBool _ | VInt _ => True
  | VFloat (FFin neg ds decpt) => wf_float (FFin neg ds decpt)
  | _ => False
  end.

Definition within_max (c : pyval) : Prop :=
  match number_of c with
  | Some x => num_leb (num_abs x) (number_of_float (max_coordinate cfg)) = true
  | None => False
  end.

Definition valid_coordinate (c : pyval) : Prop :=
  finite_number c /\ within_max c.

Definition valid_point (p : pyval) : Prop :=
  exists x y, p = VList [x; y] /\ valid_coordinate x /\ valid_coordinate y.

(** A points list of 3 to the configured maximum elements, each a pair
    of valid coordinates. *)
Definition valid_points (pts : list pyval) : Prop :=
  3 <= Z.of_nat (List.length pts) <= max_points_count cfg /\
  Forall valid_point pts.

End Validity.

(** Every primary key in the table is positive. *)
Definition positive_keys (db : Session) : Prop :=
  Forall (fun r => 0 < row_id r) db.

(** No two rows share a primary key. *)
Definition unique_keys (db : Session) : Prop :=
  NoDup (map row_id db).

(** The decoding of a stored text fails: the text is not JSON, or the
    value it encodes is not a list. *)
Definition decode_fails (text : string) : bool :=
  match Json.loads text with
  | Some (VList _) => false
  | _ => true
  end.



(** The row a successful creation appends. *)
Definition created_row (db : Session) (nm : string) (pts : list pyval) : row :=
  mkRow (next_id db) nm (Json.dumps (VList pts)).

(** ** Requests and sample data *)


(** A float that is neither not-a-number nor an infinity. *)
Definition finite (f : pyfloat) : Prop :=
  match f with FFin _ _ _ => True | _ => False end.



(** A configuration that differs in the minimum number of points. *)
Definition with_min_points_count (cfg : Settings) (m : Z) : Settings := {|
  max_coordinate := max_coordinate cfg;
  max_name_length := max_name_length cfg;
  max_points_count := max_points_count cfg;
  min_points_count := m;
  api_delay_seconds := api_delay_seconds cfg
|}.

(** The rectangle of the specification's scenario:
    [[12.3, 12.0], [16.3, 12.0], [16.3, 8.0], [12.3, 8.0]]. *)
Definition rectangle : list (list pyfloat) :=
  [[FFin false [d1; d2; d3] 2; FFin false [d1; d2] 2];
   [FFin false [d1; d6; d3] 2; FFin false [d1; d2] 2];
   [FFin false [d1; d6; d3] 2; FFin false [d8] 1];
   [FFin false [d1; d2; d3] 2; FFin false [d8] 1]].

Definition rectangle_points : list pyval :=
  map (fun p => VList (map VFloat p)) rectangle.


(** A name of 256 characters that is a single letter once trimmed. *)
Definition padded_name : string :=
  String "a" (string_of_list_ascii (repeat " "%char 255)).


(** ** Histories of the store *)

(** The calls a client can make on the service. *)
Inductive call : Type :=
| Create (name : string) (points : pyval)
| Delete (polygon_id : Z)
| ListAll.

Definition step (cfg : Settings) (db : Session) (c : call) : Session :=
  match c with
  | Create name points => fst (PolygonService.create_polygon cfg db name points)
  | Delete polygon_id => fst (PolygonService.delete_polygon cfg db polygon_id)
  | ListAll => fst (PolygonService.get_all_polygons cfg db)
  end.

(** The store after a sequence of calls on the empty table. *)
Definition run (cfg : Settings) (calls : list call) : Session :=
  fold_left (step cfg) calls [].


(** The keys go strictly upwards along the table. *)
Definition key_sorted (db : Session) : Prop :=
  StronglySorted (fun a b => row_id a < row_id b) db.

(** ** What the checks accept *)

(** A coordinate the service accepts: a [bool], an [int] or a [float]
    with a decimal value whose magnitude does not exceed the maximum. *)
Definition accepted_coordinate (cfg : Settings) (c : pyval) : Prop :=
  exists m e,
    number_of c = Some (NDec m e) /\
    num_gtb (num_abs (NDec m e)) (number_of_float (max_coordinate cfg))
    = false.

Definition accepted_point (cfg : Settings) (p : pyval) : Prop :=
  exists x y,
    p = VList [x; y] /\ accepted_coordinate cfg x /\ accepted_coordinate cfg y.


(** The shape the request schema asks for: a name of 1 to 255
    characters that is not blank once trimmed, and three points or
    more, each a pair of finite floats. *)
Definition shape_ok (r : CreatePolygonRequest) : Prop :=
  non_blank (req_name r) /\
  1 <= len (req_name r) <= 255 /\
  (3 <= List.length (req_points r))%nat /\
  Forall (fun p => exists x y, p = [x; y] /\ finite x /\ finite y)
         (req_points r).







(** ** Encoded text *)

Module JsonText.

Import Json.

(** What follows a value inside an array the encoder wrote: a comma or
    the closing bracket. *)
Definition closes (t : list ascii) : Prop :=
  exists t', t = ","%char :: t' \/ t = "]"%char :: t'.

(** The fraction of a number lexeme as it is written. *)
Definition frac_text (frac : option (list digits)) : list ascii :=
  match frac with
  | Some fd => "."%char :: show_digits fd
  | None => []
  end.

(** [scan] reads the value back from its encoding, and the encoding
    starts with a character that is neither white space nor a closing
    bracket. *)
Definition reads (scan : scanner) (v : pyval) : Prop :=
  (forall t, closes t -> scan (encode v ++ t) = Some (v, t)) /\
  (exists c r, encode v = c :: r /\ is_ws c = false /\ c <> "]"%char).

End JsonText.
Export JsonText.

(** ** Basic facts *)

Lemma bind_Return {A B : Type} (a : A) (k : A -> result B) :
  bind (Return a) k = k a.
Proof. reflexivity. Qed.

Lemma raise_if_false (e : exn) : raise_if false e = Return tt.
Proof. reflexivity. Qed.

Lemma raise_if_true (e : exn) : raise_if true e = Raise e.
Proof. reflexivity. Qed.

Lemma add_delay_ok (cfg : Settings) :
  delay_ok cfg -> PolygonService._add_delay cfg = Return tt.
Proof.
  unfold delay_ok, PolygonService._add_delay. intros H.
  replace (api_delay_seconds cfg <? 0) with false; [reflexivity|].
  symmetry. apply Z.ltb_ge. exact H.
Qed.

Lemma is_empty_strip (s : string) :
  is_empty s = true -> is_empty (strip s) = true.
Proof. destruct s; [reflexivity | discriminate]. Qed.

Lemma blank_test (s : string) :
  is_empty s || is_empty (strip s) = is_empty (strip s).
Proof.
  destruct (is_empty s) eqn:E; [|reflexivity].
  simpl. symmetry. now apply is_empty_strip.
Qed.

(** A list is never refused by the first log line. *)
Lemma log_argument_list (l : list pyval) :
  exists n, (if truthy (VList l) then py_len (VList l) else Return 0)
            = Return n.
Proof. simpl. destruct (negb _); eauto. Qed.

(** ** The store *)

Lemma next_id_above (db : Session) :
  Forall (fun r => row_id r < next_id db) db.
Proof.
  destruct db as [|r t]; [constructor|].
  unfold next_id.
  assert (H : forall (t : list row) (b : Z),
             b <= fold_right (fun x m => Z.max (row_id x) m) b t /\
             Forall (fun x => row_id x
                              <= fold_right (fun x m => Z.max (row_id x) m) b t) t).
  { clear. induction t as [|x t IH]; intros b; simpl.
    - split; [lia | constructor].
    - destruct (IH b) as [Hb Hall]. split; [lia|].
      constructor; [lia|].
      eapply Forall_impl; [|exact Hall]. simpl. intros; lia. }
  destruct (H t (row_id r)) as [Hb Hall].
  set (top := fold_right (fun x m => Z.max (row_id x) m) (row_id r) t) in *.
  constructor; [lia|].
  eapply Forall_impl; [|exact Hall]. intros a Ha. cbv beta in Ha. lia.
Qed.

Lemma key_above_fresh (n : Z) (db : Session) :
  Forall (fun r => row_id r < n) db -> existsb (has_id n) db = false.
Proof.
  induction 1 as [|r t Hr _ IH]; [reflexivity|].
  simpl. rewrite IH. unfold has_id.
  replace (row_id r =? n) with false; [reflexivity|].
  symmetry. apply Z.eqb_neq. lia.
Qed.

Lemma next_id_fresh (db : Session) :
  existsb (has_id (next_id db)) db = false.
Proof. apply key_above_fresh, next_id_above. Qed.

Lemma next_id_positive (db : Session) :
  positive_keys db -> 0 < next_id db.
Proof.
  intros H. destruct db as [|r t]; [reflexivity|].
  pose proof (Forall_inv (next_id_above (r :: t))) as Ha.
  pose proof (Forall_inv H) as Hr. cbv beta in Ha, Hr. lia.
Qed.

(** A save of an entity without key, with points that are not [None],
    appends one row and reads it back. *)
Lemma save_new (db : Session) (nm : string) (pts : list pyval) :
  PolygonRepository.save db {| id := None; name := nm; points := VList pts |}
  = (db ++ [mkRow (next_id db) nm (Json.dumps (VList pts))],
     Return (load (mkRow (next_id db) nm (Json.dumps (VList pts))))).
Proof.
  unfold PolygonRepository.save. simpl.
  now rewrite next_id_fresh.
Qed.

(** Whatever [save] raises, it leaves the table as it was. *)
Lemma save_raise (db db' : Session) (p : Polygon) (e : exn) :
  PolygonRepository.save db p = (db', Raise e) -> db' = db.
Proof.
  unfold PolygonRepository.save.
  destruct (JSONEncodedList.process_bind_param (points p)).
  - destruct (existsb _ db); intros H; inversion H; reflexivity.
  - intros H; inversion H; reflexivity.
Qed.

Lemma create_raise (cfg : Settings) (db db' : Session) (nm : string)
      (pts : pyval) (e : exn) :
  PolygonService.create_polygon cfg db nm pts = (db', Raise e) -> db' = db.
Proof.
  unfold PolygonService.create_polygon.
  destruct (PolygonService.create_checks cfg nm pts).
  - apply save_raise.
  - intros H; inversion H; reflexivity.
Qed.

(** ** Reading back what the encoder writes *)

Module Roundtrip.

Import Json.

Lemma digit_of_ascii_of_digit (d : digits) :
  digit_of_ascii (ascii_of_digit d) = Some d.
Proof. destruct d; reflexivity. Qed.

Lemma closes_no_digit (t : list ascii) :
  closes t -> take_digits t = ([], t).
Proof. intros [t' [-> | ->]]; reflexivity. Qed.

Lemma take_digits_show (ds : list digits) (t : list ascii) :
  take_digits t = ([], t) ->
  take_digits (show_digits ds ++ t) = (ds, t).
Proof.
  intros Ht. induction ds as [|d ds IH]; [exact Ht|].
  change (show_digits (d :: ds) ++ t)
    with (ascii_of_digit d :: (show_digits ds ++ t)).
  cbn [take_digits]. now rewrite digit_of_ascii_of_digit, IH.
Qed.

Lemma take_digits_point (t : list ascii) :
  take_digits ("."%char :: t) = ([], "."%char :: t).
Proof. reflexivity. Qed.

Lemma take_digits_e (t : list ascii) :
  take_digits ("e"%char :: t) = ([], "e"%char :: t).
Proof. reflexivity. Qed.

Lemma digits_val_N_digits (n : N) : digits_val (N_digits n) = n.
Proof.
  unfold digits_val, N_digits.
  rewrite of_list_to_list. apply DecimalN.Unsigned.of_to.
Qed.

Lemma N_digits_normal (n : N) : lunorm (N_digits n) = N_digits n.
Proof.
  unfold N_digits. rewrite <- unorm_spec. f_equal.
  rewrite <- DecimalN.Unsigned.to_of.
  now rewrite DecimalN.Unsigned.of_to.
Qed.

Lemma N_digits_cons (n : N) : exists d ds, N_digits n = d :: ds.
Proof.
  pose proof (N_digits_normal n) as H. unfold lunorm in H.
  destruct (N_digits n) as [|d ds]; [|eauto].
  simpl in H. discriminate.
Qed.

(** A number printed with a leading zero is zero itself. *)
Lemma N_digits_zero_head (n : N) (ds : list digits) :
  N_digits n = d0 :: ds -> ds = [].
Proof.
  intros E. pose proof (N_digits_normal n) as H.
  rewrite E in H. unfold lunorm in H. simpl in H.
  destruct (lnzhead ds) as [|x r] eqn:Hz.
  - unfold lzero in H. now inversion H.
  - pose proof (length_lnzhead ds) as Hl. rewrite Hz, H in Hl.
    simpl in Hl. lia.
Qed.

Lemma digits_val_zero_head (ds : list digits) :
  digits_val (d0 :: ds) = digits_val ds.
Proof. reflexivity. Qed.

Lemma match_frac_closes (t : list ascii) :
  closes t -> match_frac t = (None, t).
Proof. intros [t' [-> | ->]]; reflexivity. Qed.

Lemma match_exp_closes (t : list ascii) :
  closes t -> match_exp t = (None, t).
Proof. intros [t' [-> | ->]]; reflexivity. Qed.

Lemma skip_ws_closes (t : list ascii) : closes t -> skip_ws t = t.
Proof. intros [t' [-> | ->]]; reflexivity. Qed.

(** The integer part of a lexeme whose digits are those of a number. *)
Lemma match_int_digits (neg : bool) (d : digits) (ds : list digits)
      (t : list ascii) :
  (is_zero d = true -> ds = []) ->
  take_digits t = ([], t) ->
  match_int (sign_str neg ++ show_digits (d :: ds) ++ t)
  = Some (neg, d :: ds, t).
Proof.
  intros Hz Ht. unfold match_int.
  assert (Hm : forall r, match ascii_of_digit d :: r with
                         | "-"%char :: r' => (true, r')
                         | _ => (false, ascii_of_digit d :: r)
                         end = (false, ascii_of_digit d :: r))
    by (intros r; destruct d; reflexivity).
  destruct neg; simpl; rewrite ?Hm; rewrite digit_of_ascii_of_digit;
    (destruct d; try (fold (show_digits ds); now rewrite take_digits_show));
    rewrite (Hz eq_refl); reflexivity.
Qed.

Lemma scan_number_int (z : Z) (t : list ascii) :
  closes t -> scan_number (int_str z ++ t) = Some (VInt z, t).
Proof.
  intros Ht. unfold scan_number, match_number, int_str.
  change (if z <? 0 then ["-"%char] else []) with (sign_str (z <? 0)).
  destruct (N_digits_cons (Z.abs_N z)) as (d & ds & E).
  rewrite E, <- app_assoc.
  rewrite match_int_digits.
  - rewrite (match_frac_closes t Ht), (match_exp_closes t Ht).
    unfold number_value. simpl. f_equal. f_equal. f_equal.
    rewrite <- E, digits_val_N_digits, N2Z.inj_abs_N.
    destruct (Z.ltb_spec z 0); lia.
  - intros Hd. destruct d; try discriminate.
    now apply N_digits_zero_head with (n := Z.abs_N z).
  - now apply closes_no_digit.
Qed.

(** *** Floats *)

Lemma strip_leading_nonzero (d : digits) (tl : list digits) (pt : Z) :
  is_zero d = false -> strip_leading (d :: tl) pt = (d :: tl, pt).
Proof. destruct d; (discriminate || reflexivity). Qed.

Lemma strip_leading_zeros (k : nat) (ds : list digits) (pt : Z) :
  strip_leading (zeros k ++ ds) pt = strip_leading ds (pt - Z.of_nat k).
Proof.
  revert pt. induction k as [|k IH]; intros pt.
  - simpl. f_equal. lia.
  - change (zeros (S k) ++ ds) with (d0 :: (zeros k ++ ds)).
    cbn [strip_leading]. rewrite IH. f_equal. lia.
Qed.

Lemma strip_trailing_zeros_only (k : nat) : strip_trailing (zeros k) = [].
Proof.
  induction k as [|k IH]; [reflexivity|].
  change (zeros (S k)) with (d0 :: zeros k).
  cbn [strip_trailing]. now rewrite IH.
Qed.

Lemma strip_trailing_app_zeros (ds : list digits) (k : nat) :
  strip_trailing (ds ++ zeros k) = strip_trailing ds.
Proof.
  induction ds as [|d ds IH]; simpl.
  - apply strip_trailing_zeros_only.
  - now rewrite IH.
Qed.

Lemma strip_trailing_fixed (d : digits) (tl : list digits) :
  is_zero (last (d :: tl) d0) = false ->
  strip_trailing (d :: tl) = d :: tl.
Proof.
  revert d. induction tl as [|x tl IH]; intros d H.
  - simpl in *. now rewrite H.
  - change (last (d :: x :: tl) d0) with (last (x :: tl) d0) in H.
    cbn [strip_trailing]. cbn [strip_trailing] in IH. rewrite (IH x H).
    reflexivity.
Qed.

(** A digit sequence that starts and ends with a nonzero digit is its
    own normal form. *)
Lemma float_of_decimal_fixed (neg : bool) (d : digits) (tl : list digits)
      (pt : Z) :
  is_zero d = false -> is_zero (last (d :: tl) d0) = false ->
  float_of_decimal neg (d :: tl) pt = FFin neg (d :: tl) pt.
Proof.
  intros Hd Hl. unfold float_of_decimal.
  rewrite strip_leading_nonzero by exact Hd.
  now rewrite strip_trailing_fixed by exact Hl.
Qed.

(** A lexeme written part by part is read part by part. *)
Lemma match_number_parts (neg : bool) (d : digits) (ds : list digits)
      (frac : option (list digits)) (ex : option Z)
      (ex_text t : list ascii) :
  (is_zero d = true -> ds = []) ->
  frac <> Some [] ->
  take_digits (ex_text ++ t) = ([], ex_text ++ t) ->
  match_frac (ex_text ++ t) = (None, ex_text ++ t) ->
  match_exp (ex_text ++ t) = (ex, t) ->
  match_number (sign_str neg ++ show_digits (d :: ds) ++ frac_text frac
                  ++ ex_text ++ t)
  = Some (mkLexeme neg (d :: ds) frac ex, t).
Proof.
  intros Hz Hf Hd Hp He. unfold match_number.
  rewrite match_int_digits; [|exact Hz|].
  - destruct frac as [fd|]; simpl.
    + rewrite take_digits_show by exact Hd.
      destruct fd as [|x fd]; [congruence|]. now rewrite He.
    + now rewrite Hp, He.
  - destruct frac as [fd|]; [reflexivity | exact Hd].
Qed.

Lemma match_exp_text (e : Z) (t : list ascii) :
  take_digits t = ([], t) ->
  match_exp ("e"%char :: exp_str e ++ t) = (Some e, t).
Proof.
  intros Ht. unfold match_exp, exp_str.
  change (Ascii.eqb "e" "e" || Ascii.eqb "e" "E") with true. cbv iota.
  destruct (N_digits_cons (Z.abs_N e)) as (d & ds & E).
  pose proof (digits_val_N_digits (Z.abs_N e)) as Hv.
  rewrite E in *.
  set (padded := match d :: ds with [_] => d0 :: d :: ds | _ => d :: ds end).
  assert (Hp : digits_val padded = Z.abs_N e /\ exists x r, padded = x :: r).
  { unfold padded. destruct ds; simpl; split; eauto. }
  destruct Hp as (Hpv & x & r & Hpe).
  destruct (Z.ltb_spec e 0); simpl; rewrite take_digits_show by exact Ht;
    rewrite Hpe, <- Hpe, Hpv, N2Z.inj_abs_N. all: do 2 f_equal; destruct e; simpl; try reflexivity; lia.
Qed.

Lemma show_digits_app (a b : list digits) :
  show_digits (a ++ b) = show_digits a ++ show_digits b.
Proof. apply map_app. Qed.

Lemma number_value_float (neg : bool) (int : list digits)
      (frac : option (list digits)) (ex : option Z) :
  (frac <> None \/ ex <> None) ->
  number_value (mkLexeme neg int frac ex)
  = VFloat (float_of_decimal neg
              (int ++ match frac with Some fd => fd | None => [] end)
              (Z.of_nat (List.length int)
               + match ex with Some e => e | None => 0 end)).
Proof.
  intros H. unfold number_value. simpl.
  destruct frac, ex; try reflexivity. destruct H; congruence.
Qed.

Lemma scan_number_float (neg : bool) (ds : list digits) (decpt : Z)
      (t : list ascii) :
  closes t -> wf_float (FFin neg ds decpt) ->
  scan_number (float_repr (FFin neg ds decpt) ++ t)
  = Some (VFloat (FFin neg ds decpt), t).
Proof.
  intros Ht Hwf. pose proof (closes_no_digit t Ht) as Hnd.
  unfold scan_number, float_repr. rewrite <- app_assoc.
  destruct Hwf as [[-> ->] | (d & tl & -> & Hd & Hl)].
  - change (layout [d0] 1 ++ t)
      with (show_digits [d0] ++ frac_text (Some [d0]) ++ [] ++ t).
    rewrite (match_number_parts neg d0 [] (Some [d0]) None);
      [reflexivity | congruence | congruence | exact Hnd
      | now apply match_frac_closes | now apply match_exp_closes].
  - unfold layout.
    destruct ((decpt <=? -4) || (decpt >? 16)) eqn:Hsci.
    + (* scientific notation *)
      set (frac := match tl with [] => None | _ => Some tl end).
      replace ((ascii_of_digit d
                  :: match tl with
                     | [] => []
                     | _ :: _ => "."%char :: show_digits tl
                     end ++ "e"%char :: exp_str (decpt - 1)) ++ t)
        with (show_digits [d] ++ frac_text frac
                ++ ("e"%char :: exp_str (decpt - 1)) ++ t).
      2:{ unfold frac. destruct tl; simpl; rewrite <- ?app_assoc; reflexivity. }
      rewrite (match_number_parts neg d [] frac (Some (decpt - 1))).
      * rewrite number_value_float by (right; congruence).
        replace ([d] ++ match frac with Some fd => fd | None => [] end)
          with (d :: tl) by (unfold frac; destruct tl; reflexivity).
        replace (Z.of_nat (List.length [d]) + (decpt - 1)) with decpt
          by (change (Z.of_nat (List.length [d])) with 1; lia).
        now rewrite float_of_decimal_fixed by assumption.
      * reflexivity.
      * unfold frac. destruct tl; congruence.
      * reflexivity.
      * reflexivity.
      * change (("e"%char :: exp_str (decpt - 1)) ++ t)
          with ("e"%char :: exp_str (decpt - 1) ++ t).
        now apply match_exp_text.
    + destruct (Z.leb_spec decpt 0) as [Hle|Hgt].
      * (* a fraction below one tenth *)
        set (k := Z.to_nat (- decpt)).
        change (("0"%char :: "."%char :: show_digits (zeros k ++ d :: tl)) ++ t)
          with (show_digits [d0] ++ frac_text (Some (zeros k ++ d :: tl))
                  ++ [] ++ t).
        rewrite (match_number_parts neg d0 [] (Some (zeros k ++ d :: tl)) None);
          try reflexivity.
        -- rewrite number_value_float by (left; congruence).
           unfold float_of_decimal.
           change ([d0] ++ zeros k ++ d :: tl) with (zeros (S k) ++ d :: tl).
           rewrite strip_leading_zeros, strip_leading_nonzero by exact Hd.
           rewrite strip_trailing_fixed by exact Hl.
           change (List.length [d0]) with 1%nat. unfold k.
           repeat f_equal. lia.
        -- destruct k; simpl; congruence.
        -- exact Hnd.
        -- now apply match_frac_closes.
        -- now apply match_exp_closes.
      * set (n := Z.to_nat decpt).
        destruct (Nat.ltb_spec n (List.length (d :: tl))) as [Hlt|Hge].
        -- (* the point falls inside the digits *)
           assert (Hn : exists m, n = S m) by (exists (pred n); unfold n in *; lia).
           destruct Hn as [m Hm]. rewrite Hm in *.
           replace ((show_digits (firstn (S m) (d :: tl))
                       ++ "."%char :: show_digits (skipn (S m) (d :: tl))) ++ t)
             with (show_digits (d :: firstn m tl)
                     ++ frac_text (Some (skipn (S m) (d :: tl))) ++ [] ++ t)
             by (simpl; rewrite <- app_assoc; reflexivity).
           rewrite (match_number_parts neg d (firstn m tl)
                      (Some (skipn (S m) (d :: tl))) None).
           ++ rewrite number_value_float by (left; congruence).
              change (d :: firstn m tl) with (firstn (S m) (d :: tl)).
              rewrite firstn_skipn.
              rewrite length_firstn.
              replace (Z.of_nat (Nat.min (S m) (List.length (d :: tl))) + 0)
                with decpt by lia.
              now rewrite float_of_decimal_fixed by assumption.
           ++ intros Hz. rewrite Hz in Hd. discriminate.
           ++ intros Hs. inversion Hs as [Hs'].
              apply (f_equal (@List.length _)) in Hs'.
              rewrite length_skipn in Hs'. simpl in Hs', Hlt. lia.
           ++ exact Hnd.
           ++ now apply match_frac_closes.
           ++ now apply match_exp_closes.
        -- (* the point falls after the digits *)
           set (k := (n - List.length (d :: tl))%nat).
           replace ((show_digits ((d :: tl) ++ zeros k) ++ ["."; "0"]%char) ++ t)
             with (show_digits (d :: tl ++ zeros k)
                     ++ frac_text (Some [d0]) ++ [] ++ t)
             by (simpl; rewrite <- app_assoc; reflexivity).
           rewrite (match_number_parts neg d (tl ++ zeros k) (Some [d0]) None).
           ++ rewrite number_value_float by (left; congruence).
              replace ((d :: tl ++ zeros k) ++ [d0])
                with (d :: tl ++ zeros (k + 1))
                by (unfold zeros; rewrite repeat_app; simpl;
                    now rewrite <- app_assoc).
              unfold float_of_decimal.
              rewrite strip_leading_nonzero by exact Hd.
              change (d :: tl ++ zeros (k + 1))
                with ((d :: tl) ++ zeros (k + 1)).
              rewrite strip_trailing_app_zeros.
              rewrite strip_trailing_fixed by exact Hl.
              cbn [List.length]. rewrite length_app.
              unfold zeros. rewrite repeat_length.
              unfold k, n in *. cbn [List.length] in *.
              repeat f_equal. lia.
           ++ intros Hz. rewrite Hz in Hd. discriminate.
           ++ congruence.
           ++ exact Hnd.
           ++ now apply match_frac_closes.
           ++ now apply match_exp_closes.
Qed.

(** *** Values *)

(** A text that starts a number starts with a minus sign or a digit. *)
Lemma scan_number_head (s : list ascii) (x : pyval * list ascii) :
  scan_number s = Some x ->
  exists c r, s = c :: r /\ (c = "-"%char \/ exists d, c = ascii_of_digit d).
Proof.
  intros H. destruct s as [|c r]; [discriminate|].
  exists c, r. split; [reflexivity|].
  unfold scan_number, match_number, match_int in H.
  destruct c as [[] [] [] [] [] [] [] []]; simpl in H; try discriminate H;
    first [ now left
          | right;
            first [ now exists d0 | now exists d1 | now exists d2
                  | now exists d3 | now exists d4 | now exists d5
                  | now exists d6 | now exists d7 | now exists d8
                  | now exists d9 ] ].
Qed.

Lemma scan_once_digit (fuel : nat) (d : digits) (r : list ascii) :
  scan_once (S fuel) (ascii_of_digit d :: r)
  = scan_number (ascii_of_digit d :: r).
Proof. destruct d; reflexivity. Qed.

(** Where the number scanner succeeds, the dispatch on the first
    character reaches it. *)
Lemma scan_once_number (fuel : nat) (s : list ascii) (x : pyval * list ascii) :
  scan_number s = Some x -> scan_once (S fuel) s = Some x.
Proof.
  intros H. destruct (scan_number_head s x H) as (c & r & -> & [-> | [d ->]]).
  - cbn [scan_once]. change (Ascii.eqb "-" dquote) with false. cbv iota.
    now rewrite H.
  - now rewrite scan_once_digit.
Qed.

Lemma head_of_number (c : ascii) :
  c = "-"%char \/ (exists d, c = ascii_of_digit d) ->
  is_ws c = false /\ c <> "]"%char.
Proof.
  intros [-> | [d ->]]; [split; [reflexivity | discriminate]|].
  destruct d; (split; [reflexivity | discriminate]).
Qed.

Lemma reads_number (fuel : nat) (v : pyval) :
  (forall t, closes t -> scan_number (encode v ++ t) = Some (v, t)) ->
  reads (scan_once (S fuel)) v.
Proof.
  intros H. split.
  - intros t Ht. apply scan_once_number. now apply H.
  - assert (Hc : closes ["]"%char]) by (exists []; now right).
    destruct (scan_number_head _ _ (H _ Hc)) as (c & r & E & Hhead).
    destruct (head_of_number c Hhead) as [Hws Hne].
    destruct (encode v) as [|c' r'].
    + simpl in E. inversion E; subst. congruence.
    + simpl in E. inversion E; subst. eauto.
Qed.

Lemma reads_coordinate (fuel : nat) (c : pyval) :
  finite_number c -> reads (scan_once (S fuel)) c.
Proof.
  destruct c as [|b|z|f| | |]; simpl; try contradiction; intros Hc.
  - split.
    + intros t _. destruct b; reflexivity.
    + destruct b; do 2 eexists; (split; [reflexivity|]);
        (split; [reflexivity | discriminate]).
  - apply reads_number. intros t Ht. now apply scan_number_int.
  - destruct f as [| |neg ds decpt]; try contradiction.
    apply reads_number. intros t Ht.
    change (encode (VFloat (FFin neg ds decpt)))
      with (float_repr (FFin neg ds decpt)).
    now apply scan_number_float.
Qed.

(** *** Arrays *)

Lemma reads_skip_ws (scan : scanner) (v : pyval) (t : list ascii) :
  reads scan v -> skip_ws (encode v ++ t) = encode v ++ t.
Proof.
  intros [_ (c & r & E & Hws & _)]. rewrite E. simpl. now rewrite Hws.
Qed.

(** The encoding of a nonempty sequence of items is that of its first
    item followed by a comma or by the closing bracket. *)
Lemma join_head (x : pyval) (items : list pyval) (t : list ascii) :
  exists t', closes t' /\
    join (map encode (x :: items)) ++ "]"%char :: t = encode x ++ t'.
Proof.
  destruct items as [|y items].
  - exists ("]"%char :: t). split; [exists t; now right | reflexivity].
  - exists (","%char :: " "%char
              :: (join (map encode (y :: items)) ++ "]"%char :: t)).
    split; [eexists; now left|].
    cbn [map join]. rewrite <- !app_assoc. reflexivity.
Qed.

Lemma array_items_join (scan : scanner) (items : list pyval) :
  Forall (reads scan) items ->
  forall (x : pyval) (n : nat) (t : list ascii),
    reads scan x ->
    (List.length items < n)%nat ->
    array_items scan n (join (map encode (x :: items)) ++ "]"%char :: t)
    = Some (x :: items, t).
Proof.
  induction 1 as [|y items Hy Hitems IH]; intros x n t Hx Hn.
  - destruct n as [|n]; [simpl in Hn; lia|].
    cbn [map join array_items].
    destruct Hx as [Hx _]. rewrite Hx by (exists t; now right).
    reflexivity.
  - destruct n as [|n]; [simpl in Hn; lia|].
    change (join (map encode (x :: y :: items)))
      with (encode x ++ chars ", " ++ join (map encode (y :: items))).
    rewrite <- !app_assoc.
    change (chars ", " ++ join (map encode (y :: items)) ++ "]"%char :: t)
      with (","%char :: " "%char
              :: (join (map encode (y :: items)) ++ "]"%char :: t)).
    cbn [array_items].
    destruct Hx as [Hx _]. rewrite Hx by (eexists; now left).
    cbn [skip_ws is_ws]. cbv iota.
    destruct (join_head y items t) as (t' & Ht' & E).
    rewrite E, (reads_skip_ws scan y t' Hy), <- E.
    rewrite IH; [reflexivity | exact Hy | simpl in Hn; lia].
Qed.

Lemma JSONArray_items (scan : scanner) (n : nat) (c : ascii)
      (r : list ascii) :
  is_ws c = false -> c <> "]"%char ->
  JSONArray scan n (c :: r)
  = match array_items scan n (c :: r) with
    | Some (vs, r') => Some (VList vs, r')
    | None => None
    end.
Proof.
  intros Hws Hne. unfold JSONArray. cbn [skip_ws]. rewrite Hws.
  destruct c as [[] [] [] [] [] [] [] []]; try reflexivity. congruence.
Qed.

Lemma length_join (items : list pyval) :
  Forall (fun v => encode v <> []) items ->
  (List.length items <= List.length (join (map encode items)))%nat.
Proof.
  induction 1 as [|x items Hx _ IH]; [simpl; lia|].
  destruct items as [|y items].
  - simpl. destruct (encode x); [congruence | simpl; lia].
  - change (join (map encode (x :: y :: items)))
      with (encode x ++ chars ", " ++ join (map encode (y :: items))).
    rewrite !length_app. simpl List.length in *. lia.
Qed.

Lemma reads_nonempty (scan : scanner) (v : pyval) :
  reads scan v -> encode v <> [].
Proof. intros [_ (c & r & E & _)]. rewrite E. discriminate. Qed.

(** A nonempty list is read back, whatever follows it. *)
Lemma scan_once_list (fuel : nat) (x : pyval) (items : list pyval)
      (t : list ascii) :
  Forall (reads (scan_once fuel)) (x :: items) ->
  scan_once (S fuel) (encode (VList (x :: items)) ++ t)
  = Some (VList (x :: items), t).
Proof.
  intros Hall. pose proof (Forall_inv Hall) as Hx.
  pose proof (Forall_inv_tail Hall) as Hitems.
  change (encode (VList (x :: items)) ++ t)
    with ("["%char :: (join (map encode (x :: items)) ++ ["]"%char]) ++ t).
  rewrite <- app_assoc.
  change (["]"%char] ++ t) with ("]"%char :: t).
  cbn [scan_once]. change (Ascii.eqb "[" dquote) with false. cbv iota.
  set (body := join (map encode (x :: items)) ++ "]"%char :: t).
  assert (Hlen : (List.length items < List.length body)%nat).
  { unfold body. rewrite length_app.
    assert (Hne : Forall (fun v => encode v <> []) (x :: items)).
    { eapply Forall_impl; [|exact Hall]. intros v. apply reads_nonempty. }
    pose proof (length_join (x :: items) Hne) as Hj.
    simpl List.length in *. lia. }
  destruct (join_head x items t) as (t' & Ht' & E). fold body in E.
  destruct Hx as [Hscan (c & r & Ec & Hws & Hne)].
  assert (Eb : body = c :: (r ++ t')) by (rewrite E, Ec; reflexivity).
  rewrite Eb at 2. rewrite JSONArray_items by assumption.
  rewrite <- Eb. unfold body.
  rewrite array_items_join; [reflexivity | exact Hitems | | exact Hlen].
  split; [exact Hscan | eauto].
Qed.

Lemma reads_list (fuel : nat) (x : pyval) (items : list pyval) :
  Forall (reads (scan_once fuel)) (x :: items) ->
  reads (scan_once (S fuel)) (VList (x :: items)).
Proof.
  intros H. split.
  - intros t _. now apply scan_once_list.
  - exists "["%char. eexists. split; [reflexivity|].
    split; [reflexivity | discriminate].
Qed.

(** *** The column type *)

Lemma reads_point (cfg : Settings) (fuel : nat) (p : pyval) :
  valid_point cfg p -> reads (scan_once (S (S fuel))) p.
Proof.
  intros (x & y & -> & [Hx _] & [Hy _]).
  apply reads_list.
  repeat constructor; now apply reads_coordinate.
Qed.

(** [json.loads(json.dumps(points))] is [points] for a nonempty list of
    valid points. *)
Lemma loads_dumps_points (cfg : Settings) (p : pyval) (pts : list pyval) :
  Forall (valid_point cfg) (p :: pts) ->
  loads (dumps (VList (p :: pts))) = Some (VList (p :: pts)).
Proof.
  intros H. unfold loads, dumps, chars.
  rewrite list_ascii_of_string_of_list_ascii.
  set (s := encode (VList (p :: pts))).
  assert (Hs : exists r, s = "["%char :: r /\ (2 <= List.length s)%nat).
  { unfold s. cbn [encode]. eexists. split; [reflexivity|].
    cbn [List.length]. rewrite length_app. simpl. lia. }
  destruct Hs as (r & Es & Hlen).
  assert (Hws : skip_ws s = s) by (rewrite Es; reflexivity).
  rewrite Hws.
  destruct (List.length s) as [|[|fuel]] eqn:El; try lia.
  rewrite <- (List.app_nil_r s). unfold s.
  rewrite scan_once_list; [reflexivity|].
  eapply Forall_impl; [|exact H].
  intros v. apply reads_point.
Qed.

Lemma dumps_not_blank (l : list pyval) :
  is_empty (strip (dumps (VList l))) = false.
Proof.
  unfold dumps. cbn [encode string_of_list_ascii].
  unfold strip. cbn [lstrip]. change (is_space "[") with false. cbv iota.
  cbn [rstrip]. change (is_space "[") with false.
  now destruct (rstrip _).
Qed.

Lemma process_result_value_points (cfg : Settings) (pts : list pyval) :
  pts <> [] -> Forall (valid_point cfg) pts ->
  JSONEncodedList.process_result_value (Some (dumps (VList pts)))
  = VList pts.
Proof.
  intros Hne H. destruct pts as [|p pts]; [congruence|].
  unfold JSONEncodedList.process_result_value.
  rewrite dumps_not_blank.
  now rewrite (loads_dumps_points cfg p pts H).
Qed.

End Roundtrip.

(** ** Validation *)

Lemma num_leb_not_gtb (a b : number) :
  num_leb a b = true -> num_gtb a b = false.
Proof.
  unfold num_leb.
  destruct a as [|s|m1 e1], b as [|t|m2 e2]; simpl; try discriminate;
    try (destruct s; simpl; congruence);
    try (destruct t; simpl; congruence).
  - destruct s, t; simpl; congruence.
  - rewrite (Z.min_comm e2 e1). intros H.
    apply orb_true_iff in H. destruct H as [H | H].
    + apply Z.gtb_lt in H.
      destruct (Z.gtb_spec (m1 * 10 ^ (e1 - Z.min e1 e2))
                           (m2 * 10 ^ (e2 - Z.min e1 e2))); [lia | reflexivity].
    + apply Z.eqb_eq in H. rewrite H.
      destruct (Z.gtb_spec (m2 * 10 ^ (e2 - Z.min e1 e2))
                           (m2 * 10 ^ (e2 - Z.min e1 e2))); [lia | reflexivity].
Qed.

(** A valid coordinate is a decimal number. *)
Lemma valid_coordinate_decimal (cfg : Settings) (c : pyval) :
  valid_coordinate cfg c ->
  c <> VNone /\
  exists m e, number_of c = Some (NDec m e) /\
    num_gtb (num_abs (NDec m e)) (number_of_float (max_coordinate cfg))
    = false.
Proof.
  intros [Hf Hw]. unfold within_max in Hw.
  destruct c as [|b|z|f| | |]; simpl in Hf; try contradiction;
    (split; [discriminate|]).
  - do 2 eexists. split; [reflexivity|]. now apply num_leb_not_gtb.
  - do 2 eexists. split; [reflexivity|]. now apply num_leb_not_gtb.
  - destruct f as [| |neg ds decpt]; try contradiction.
    do 2 eexists. split; [reflexivity|]. now apply num_leb_not_gtb.
Qed.

Lemma num_eqb_decimal_refl (m e : Z) : num_eqb (NDec m e) (NDec m e) = true.
Proof. simpl. apply Z.eqb_refl. Qed.

Lemma check_coordinate_valid (cfg : Settings) (c : pyval) :
  valid_coordinate cfg c -> PolygonService.check_coordinate cfg c = Return tt.
Proof.
  intros H. destruct (valid_coordinate_decimal cfg c H)
    as (Hn & m & e & En & Hgt).
  unfold PolygonService.check_coordinate. rewrite En.
  unfold PolygonService.MAX_COORDINATE. rewrite Hgt.
  rewrite num_eqb_decimal_refl.
  destruct c; try congruence; reflexivity.
Qed.

Lemma check_point_valid (cfg : Settings) (p : pyval) :
  valid_point cfg p -> PolygonService.check_point cfg p = Return tt.
Proof.
  intros (x & y & -> & Hx & Hy).
  unfold PolygonService.check_point. simpl.
  rewrite (check_coordinate_valid cfg x Hx).
  now rewrite (check_coordinate_valid cfg y Hy).
Qed.

Lemma for_each_all {A : Type} (body : A -> result unit) (l : list A) :
  Forall (fun x => body x = Return tt) l -> for_each body l = Return tt.
Proof.
  induction 1 as [|x l Hx _ IH]; [reflexivity|].
  simpl. now rewrite Hx.
Qed.

Lemma validate_points_valid (cfg : Settings) (pts : list pyval) :
  valid_points cfg pts ->
  PolygonService._validate_points cfg (VList pts) = Return tt.
Proof.
  intros [[_ Hmax] Hall]. unfold PolygonService._validate_points. simpl.
  unfold PolygonService.MAX_POINTS_COUNT.
  replace (Z.of_nat (List.length pts) >? max_points_count cfg) with false
    by (symmetry; rewrite Z.gtb_ltb; apply Z.ltb_ge; exact Hmax).
  simpl. apply for_each_all.
  eapply Forall_impl; [|exact Hall]. intros p. apply check_point_valid.
Qed.

Lemma create_checks_valid (cfg : Settings) (nm : string)
      (pts : list pyval) :
  delay_ok cfg -> non_blank nm -> len nm <= max_name_length cfg ->
  valid_points cfg pts ->
  PolygonService.create_checks cfg nm (VList pts) = Return tt.
Proof.
  intros Hd Hb Hl Hv. unfold PolygonService.create_checks.
  destruct (log_argument_list pts) as [n ->]. rewrite bind_Return.
  rewrite (add_delay_ok cfg Hd), bind_Return.
  rewrite blank_test, Hb, raise_if_false, bind_Return.
  unfold PolygonService.MAX_NAME_LENGTH.
  replace (len nm >? max_name_length cfg) with false
    by (symmetry; rewrite Z.gtb_ltb; apply Z.ltb_ge; exact Hl).
  rewrite raise_if_false, bind_Return.
  pose proof Hv as [[Hmin _] _].
  assert (Ht : truthy (VList pts) = true).
  { simpl. destruct pts; [simpl in Hmin; lia | reflexivity]. }
  rewrite Ht. simpl negb. rewrite raise_if_false, bind_Return.
  cbn [py_len]. rewrite bind_Return.
  replace (Z.of_nat (List.length pts) <? 3) with false
    by (symmetry; apply Z.ltb_ge; exact Hmin).
  rewrite raise_if_false, bind_Return.
  now apply validate_points_valid.
Qed.

(** A valid request is stored in a new row under a fresh key, and the
    entity handed back carries that key, the name and the points as
    they were given. *)
Lemma create_polygon_valid (cfg : Settings) (db : Session) (nm : string)
      (pts : list pyval) :
  delay_ok cfg -> non_blank nm -> len nm <= max_name_length cfg ->
  valid_points cfg pts ->
  PolygonService.create_polygon cfg db nm (VList pts)
  = (db ++ [created_row db nm pts],
     Return {| id := Some (next_id db); name := nm; points := VList pts |}).
Proof.
  intros Hd Hb Hl Hv. unfold PolygonService.create_polygon.
  rewrite (create_checks_valid cfg nm pts Hd Hb Hl Hv).
  rewrite save_new. unfold created_row, load.
  cbn [row_id row_name row_points].
  destruct Hv as [[Hmin _] Hall].
  rewrite (Roundtrip.process_result_value_points cfg pts); [reflexivity| |exact Hall].
  intros ->. simpl in Hmin. lia.
Qed.

(** ** Sample data *)

Lemma delay_ok_settings : delay_ok settings.
Proof. unfold delay_ok. simpl. lia. Qed.

Lemma rectangle_valid : valid_points settings rectangle_points.
Proof.
  split; [simpl; lia|].
  repeat constructor;
    (do 2 eexists; split; [reflexivity|]);
    split; (split; [right; do 2 eexists; repeat split; reflexivity
                   | reflexivity]).
Qed.

Lemma len_padded_name : len padded_name = 256.
Proof. reflexivity. Qed.


(** ** Creation of a valid polygon *)



(** ** The bound on the length of the name *)






(** ** Order of the checks *)



(** ** Failure leaves the store alone *)

(** C9.  Creation is atomic on error: whenever [create_polygon] raises a
    validation error, the error comes from the checks that precede the
    save, the table is the one before the call and so is the listing of
    the persisted polygons. *)
Theorem create_error_stores_nothing (cfg : Settings) (db db' : Session)
        (nm : string) (pts : pyval) (msg : string) :
  PolygonService.create_polygon cfg db nm pts = (db', Raise (ValueError msg)) ->
  PolygonService.create_checks cfg nm pts = Raise (ValueError msg)
  /\ db' = db
  /\ PolygonRepository.find_all db' = PolygonRepository.find_all db.
Proof.
  intros H. pose proof (create_raise _ _ _ _ _ _ H) as ->.
  split; [|split; reflexivity].
  unfold PolygonService.create_polygon in H.
  destruct (PolygonService.create_checks cfg nm pts) as [[]|e].
  - unfold PolygonRepository.save in H.
    destruct (JSONEncodedList.process_bind_param _); [|discriminate].
    destruct (existsb _ db); discriminate.
  - now inversion H.
Qed.

Lemma create_error_stores_nothing_witness :
  PolygonService.create_checks settings "P1" (VList [])
  = Raise (ValueError "Polygon points are required")
  /\ [created_row [] "P0" rectangle_points]
     = [created_row [] "P0" rectangle_points]
  /\ PolygonRepository.find_all [created_row [] "P0" rectangle_points]
     = PolygonRepository.find_all [created_row [] "P0" rectangle_points].
Proof.
  apply (create_error_stores_nothing settings
           [created_row [] "P0" rectangle_points]
           [created_row [] "P0" rectangle_points] "P1" (VList [])
           "Polygon points are required").
  reflexivity.
Defined.

(** ** The minimum number of points *)

Lemma create_ignores_min_points_count (cfg : Settings) (m : Z)
      (db : Session) (nm : string) (pts : pyval) :
  PolygonService.create_polygon (with_min_points_count cfg m) db nm pts
  = PolygonService.create_polygon cfg db nm pts.
Proof. reflexivity. Qed.

(** C3.  The code does not consult [min_points_count]: whatever the
    configured minimum, [create_polygon] behaves as under any other, and
    the minimum is the constant 3.  Under a configured minimum of 5 a
    list of 4 valid points is accepted, and under a configured minimum
    of 2 a list of 2 points is refused for having fewer than 3. *)
Theorem min_points_count_not_consulted :
  (forall (cfg : Settings) (m : Z) (db : Session) (nm : string)
          (pts : pyval),
     PolygonService.create_polygon (with_min_points_count cfg m) db nm pts
     = PolygonService.create_polygon cfg db nm pts)
  /\ (exists p : Polygon,
        PolygonService.create_polygon (with_min_points_count settings 5) []
                                      "P1" (VList rectangle_points)
        = ([created_row [] "P1" rectangle_points], Return p))
  /\ PolygonService.create_polygon (with_min_points_count settings 2) []
                                   "P1" (VList (firstn 2 rectangle_points))
     = ([], Raise (ValueError "Polygon must have at least 3 points")).
Proof.
  split; [intros; apply create_ignores_min_points_count|].
  split; [|reflexivity].
  rewrite create_ignores_min_points_count.
  eexists. apply create_polygon_valid.
  - exact delay_ok_settings.
  - reflexivity.
  - unfold len. simpl. lia.
  - exact rectangle_valid.
Qed.

(** ** Listing *)

Lemma scan_sorted (db : Session) : key_sorted db -> scan db = db.
Proof.
  induction 1 as [|r t Ht IH Hr]; [reflexivity|].
  unfold scan in *. cbn [fold_right]. rewrite IH.
  destruct t as [|x t']; [reflexivity|].
  cbn [insert_by_id].
  pose proof (Forall_inv Hr) as Hx. cbv beta in Hx.
  replace (row_id r <=? row_id x) with true; [reflexivity|].
  symmetry. apply Z.leb_le. lia.
Qed.

Lemma key_sorted_snoc (db : Session) (r : row) :
  key_sorted db -> Forall (fun x => row_id x < row_id r) db ->
  key_sorted (db ++ [r]).
Proof.
  induction 1 as [|a t Ht IH Ha]; intros Hall.
  - repeat constructor.
  - simpl. constructor.
    + apply IH. now inversion Hall.
    + apply Forall_app. split; [exact Ha|].
      constructor; [|constructor]. now inversion Hall.
Qed.

Lemma key_sorted_filter (f : row -> bool) (db : Session) :
  key_sorted db -> key_sorted (filter f db).
Proof.
  induction 1 as [|a t Ht IH Ha]; [constructor|].
  simpl. destruct (f a); [|exact IH].
  constructor; [exact IH|].
  apply Forall_forall. intros x Hx.
  apply filter_In in Hx. destruct Hx as [Hx _].
  rewrite Forall_forall in Ha. now apply Ha.
Qed.

Lemma save_key_sorted (db db' : Session) (nm : string) (pts : pyval)
      (r : result Polygon) :
  PolygonRepository.save db {| id := None; name := nm; points := pts |}
  = (db', r) ->
  key_sorted db -> key_sorted db'.
Proof.
  unfold PolygonRepository.save. cbn [id name points].
  destruct (JSONEncodedList.process_bind_param pts) as [text|].
  - destruct (existsb _ db); intros H Hs; inversion H; subst; [exact Hs|].
    apply key_sorted_snoc; [exact Hs|]. apply next_id_above.
  - intros H Hs; inversion H; subst; exact Hs.
Qed.

Lemma step_key_sorted (cfg : Settings) (db : Session) (c : call) :
  key_sorted db -> key_sorted (step cfg db c).
Proof.
  intros Hs. destruct c as [nm pts|i|]; unfold step.
  - unfold PolygonService.create_polygon.
    destruct (PolygonService.create_checks cfg nm pts); [|exact Hs].
    destruct (PolygonRepository.save db _) as [db' r] eqn:E.
    simpl. eapply save_key_sorted; eassumption.
  - unfold PolygonService.delete_polygon.
    destruct (PolygonService._add_delay cfg); [|exact Hs].
    simpl. now apply key_sorted_filter.
  - unfold PolygonService.get_all_polygons.
    destruct (PolygonService._add_delay cfg); exact Hs.
Qed.

Lemma run_key_sorted (cfg : Settings) (calls : list call) :
  key_sorted (run cfg calls).
Proof.
  unfold run.
  assert (H : forall db, key_sorted db ->
                         key_sorted (fold_left (step cfg) calls db)).
  { induction calls as [|c calls IH]; intros db Hs; [exact Hs|].
    simpl. apply IH. now apply step_key_sorted. }
  apply H. constructor.
Qed.

(** *** The scan and the invariants of the table *)

(** Whatever the table holds, a scan returns each of its rows once. *)
Lemma scan_permutation (db : Session) : Permutation (scan db) db.
Proof.
  assert (Hins : forall r t, Permutation (insert_by_id r t) (r :: t)).
  { intros r t. induction t as [|x t IH]; [reflexivity|].
    simpl. destruct (row_id r <=? row_id x); [reflexivity|].
    rewrite IH. apply perm_swap. }
  induction db as [|r t IH]; [reflexivity|].
  unfold scan in *. simpl. rewrite Hins. now constructor.
Qed.

(** ... and returns them by ascending key. *)
Lemma scan_ascending (db : Session) :
  Sorted (fun a b => row_id a <= row_id b) (scan db).
Proof.
  assert (Hins : forall r t,
             Sorted (fun a b => row_id a <= row_id b) t ->
             Sorted (fun a b => row_id a <= row_id b) (insert_by_id r t)).
  { intros r t. induction 1 as [|x t Ht IH Hx]; [repeat constructor|].
    simpl. destruct (Z.leb_spec (row_id r) (row_id x)).
    - repeat constructor; assumption.
    - constructor; [exact IH|].
      destruct t as [|y t]; simpl.
      + constructor. lia.
      + destruct (Z.leb_spec (row_id r) (row_id y)); constructor;
          [lia | now inversion Hx]. }
  induction db as [|r t IH]; [constructor|].
  unfold scan in *. simpl. now apply Hins.
Qed.

Lemma key_sorted_unique (db : Session) : key_sorted db -> unique_keys db.
Proof.
  unfold unique_keys. induction 1 as [|a t Ht IH Ha]; [constructor|].
  simpl. constructor; [|exact IH].
  intros Hin. apply in_map_iff in Hin. destruct Hin as (x & Hx & Hin).
  rewrite Forall_forall in Ha. specialize (Ha x Hin). lia.
Qed.

Lemma step_positive_keys (cfg : Settings) (db : Session) (c : call) :
  positive_keys db -> positive_keys (step cfg db c).
Proof.
  intros Hp. destruct c as [nm pts|i|]; unfold step.
  - unfold PolygonService.create_polygon.
    destruct (PolygonService.create_checks cfg nm pts); [|exact Hp].
    unfold PolygonRepository.save. cbn [id name points].
    destruct (JSONEncodedList.process_bind_param pts); [|exact Hp].
    destruct (existsb _ db); [exact Hp|]. simpl.
    apply Forall_app. split; [exact Hp|].
    constructor; [|constructor]. simpl. now apply next_id_positive.
  - unfold PolygonService.delete_polygon.
    destruct (PolygonService._add_delay cfg); [|exact Hp].
    simpl. unfold positive_keys in *. rewrite Forall_forall in *.
    intros x Hx. apply Hp. apply filter_In in Hx. tauto.
  - unfold PolygonService.get_all_polygons.
    destruct (PolygonService._add_delay cfg); exact Hp.
Qed.

(** The tables the service produces have positive, unique keys. *)
Lemma run_positive_keys (cfg : Settings) (calls : list call) :
  positive_keys (run cfg calls).
Proof.
  unfold run.
  assert (H : forall db, positive_keys db ->
                         positive_keys (fold_left (step cfg) calls db)).
  { induction calls as [|c calls IH]; intros db Hs; [exact Hs|].
    simpl. apply IH. now apply step_positive_keys. }
  apply H. constructor.
Qed.

Lemma run_unique_keys (cfg : Settings) (calls : list call) :
  unique_keys (run cfg calls).
Proof. apply key_sorted_unique, run_key_sorted. Qed.




(** ** Decoding the points column *)

(** C6, as stated, fails: the empty text is not JSON, and the decoder of
    the column returns [None] for it, not an empty list. *)
Lemma blank_text_decodes_to_none :
  decode_fails EmptyString = true
  /\ JSONEncodedList.process_result_value (Some EmptyString) = VNone
  /\ JSONEncodedList.process_result_value (Some EmptyString) <> VList [].
Proof. repeat split. discriminate. Qed.

(** C6, amended.  For every stored text that is not blank and whose
    decoding fails -- the text is not JSON, or it encodes a value that is
    not a list -- the decoder of the column returns the empty list; for
    a blank text it returns [None]; in neither case does it raise. *)
Theorem undecodable_points_give_empty_list (text : string) :
  decode_fails text = true ->
  JSONEncodedList.process_result_value (Some text)
  = if is_empty (strip text) then VNone else VList [].
Proof.
  unfold decode_fails, JSONEncodedList.process_result_value.
  destruct (is_empty (strip text)); [reflexivity|].
  destruct (Json.loads text) as [[]|]; (reflexivity || discriminate).
Qed.

Lemma undecodable_points_give_empty_list_witness :
  JSONEncodedList.process_result_value (Some "{}")
  = if is_empty (strip "{}") then VNone else VList [].
Proof.
  apply (undecodable_points_give_empty_list "{}").
  reflexivity.
Defined.

(** ** Deletion *)





(** ** Coordinates beyond the maximum *)








(** ** Boolean coordinates *)




(** * Further properties of the code *)

(** ** Running a sequence of statements backwards *)

Lemma bind_Return_inv {A B : Type} (m : result A) (k : A -> result B)
      (b : B) :
  bind m k = Return b -> exists a, m = Return a /\ k a = Return b.
Proof. destruct m as [a|e]; [eauto | discriminate]. Qed.

Lemma raise_if_Return_inv (c : bool) (e : exn) :
  raise_if c e = Return tt -> c = false.
Proof. destruct c; [discriminate | reflexivity]. Qed.

Lemma for_each_Return_inv {A : Type} (body : A -> result unit)
      (l : list A) :
  for_each body l = Return tt -> Forall (fun x => body x = Return tt) l.
Proof.
  induction l as [|x l IH]; [constructor|].
  simpl. intros H. apply bind_Return_inv in H.
  destruct H as ([] & Hx & Hl). constructor; auto.
Qed.

(** ** The coordinate check *)

Lemma check_coordinate_Return_iff (cfg : Settings) (c : pyval) :
  PolygonService.check_coordinate cfg c = Return tt
  <-> accepted_coordinate cfg c.
Proof.
  unfold PolygonService.check_coordinate, accepted_coordinate,
    PolygonService.MAX_COORDINATE.
  split.
  - destruct c as [|b|z|f| | |]; simpl; try discriminate.
    + intros H. apply bind_Return_inv in H. destruct H as (_ & _ & H).
      do 2 eexists. split; [reflexivity|].
      now apply raise_if_Return_inv in H.
    + intros H. apply bind_Return_inv in H. destruct H as (_ & _ & H).
      do 2 eexists. split; [reflexivity|].
      now apply raise_if_Return_inv in H.
    + destruct f as [|neg|neg ds decpt]; simpl; try discriminate.
      * destruct neg; discriminate.
      * intros H. apply bind_Return_inv in H. destruct H as (_ & _ & H).
        do 2 eexists. split; [reflexivity|].
        now apply raise_if_Return_inv in H.
  - intros (m & e & En & Hgt). rewrite En, Hgt, num_eqb_decimal_refl.
    destruct c; try discriminate; reflexivity.
Qed.


Lemma check_point_Return_iff (cfg : Settings) (p : pyval) :
  PolygonService.check_point cfg p = Return tt <-> accepted_point cfg p.
Proof.
  split.
  - unfold PolygonService.check_point. intros H.
    destruct p as [| | | |cps|l|kvs]; try discriminate;
      apply bind_Return_inv in H; destruct H as (n & Hn & H);
      apply bind_Return_inv in H; destruct H as ([] & Hlen & H);
      apply raise_if_Return_inv in Hlen; apply negb_false_iff in Hlen;
      apply Z.eqb_eq in Hlen; simpl in Hn; inversion Hn as [Hn'];
      rewrite <- Hn' in Hlen; clear Hn Hn';
      apply bind_Return_inv in H; destruct H as (items & Hit & H);
      simpl in Hit; inversion Hit; subst items; clear Hit;
      apply for_each_Return_inv in H.
    + destruct cps as [|a [|b [|? ?]]]; simpl in Hlen; try lia.
      inversion H as [|? ? Ha _]. discriminate Ha.
    + destruct l as [|x [|y [|? ?]]]; simpl in Hlen; try lia.
      inversion H as [|? ? Hx H']; subst. inversion H' as [|? ? Hy _]; subst.
      exists x, y. split; [reflexivity|].
      split; now apply check_coordinate_Return_iff.
    + destruct kvs as [|a [|b [|? ?]]]; simpl in Hlen; try lia.
      inversion H as [|? ? Ha _]. discriminate Ha.
  - intros (x & y & -> & Hx & Hy).
    apply check_coordinate_Return_iff in Hx, Hy.
    unfold PolygonService.check_point. simpl. now rewrite Hx, Hy.
Qed.

(** ** What [create_polygon] accepts *)

Lemma create_checks_Return_iff (cfg : Settings) (nm : string) (pts : pyval) :
  PolygonService.create_checks cfg nm pts = Return tt
  <-> delay_ok cfg /\ non_blank nm /\ len nm <= max_name_length cfg /\
      exists l, pts = VList l /\
                3 <= Z.of_nat (List.length l) <= max_points_count cfg /\
                Forall (accepted_point cfg) l.
Proof.
  split.
  - unfold PolygonService.create_checks. intros H.
    apply bind_Return_inv in H. destruct H as (n0 & _ & H).
    apply bind_Return_inv in H. destruct H as ([] & Hd & H).
    apply raise_if_Return_inv, Z.ltb_ge in Hd.
    apply bind_Return_inv in H. destruct H as ([] & Hb & H).
    apply raise_if_Return_inv in Hb. rewrite blank_test in Hb.
    apply bind_Return_inv in H. destruct H as ([] & Hl & H).
    apply raise_if_Return_inv in Hl. rewrite Z.gtb_ltb in Hl.
    apply Z.ltb_ge in Hl.
    apply bind_Return_inv in H. destruct H as ([] & _ & H).
    apply bind_Return_inv in H. destruct H as (n & Hn & H).
    apply bind_Return_inv in H. destruct H as ([] & Hmin & H).
    apply raise_if_Return_inv, Z.ltb_ge in Hmin.
    unfold PolygonService._validate_points in H.
    rewrite Hn, bind_Return in H.
    apply bind_Return_inv in H. destruct H as ([] & Hmax & H).
    apply raise_if_Return_inv in Hmax. rewrite Z.gtb_ltb in Hmax.
    apply Z.ltb_ge in Hmax.
    apply bind_Return_inv in H. destruct H as (items & Hit & H).
    apply for_each_Return_inv in H.
    assert (Hacc : Forall (accepted_point cfg) items).
    { eapply Forall_impl; [|exact H]. intros p. apply check_point_Return_iff. }
    split; [exact Hd|]. split; [exact Hb|]. split; [exact Hl|].
    destruct pts as [| | | |cps|l|kvs]; try discriminate;
      simpl in Hn, Hit; injection Hn as <-; injection Hit as <-.
    + destruct cps as [|c cps]; [simpl in Hmin; lia|].
      inversion Hacc as [|? ? (x & y & E & _) _]. discriminate E.
    + exists l. auto.
    + destruct kvs as [|kv kvs]; [simpl in Hmin; lia|].
      inversion Hacc as [|? ? (x & y & E & _) _]. discriminate E.
  - intros (Hd & Hb & Hl & l & -> & [Hmin Hmax] & Hacc).
    unfold PolygonService.create_checks.
    destruct (log_argument_list l) as [n ->]. rewrite bind_Return.
    rewrite (add_delay_ok cfg Hd), bind_Return.
    rewrite blank_test, Hb, raise_if_false, bind_Return.
    unfold PolygonService.MAX_NAME_LENGTH.
    replace (len nm >? max_name_length cfg) with false
      by (symmetry; rewrite Z.gtb_ltb; apply Z.ltb_ge; exact Hl).
    rewrite raise_if_false, bind_Return.
    assert (Ht : truthy (VList l) = true).
    { simpl. destruct l; [simpl in Hmin; lia | reflexivity]. }
    rewrite Ht. simpl negb. rewrite raise_if_false, bind_Return.
    cbn [py_len]. rewrite bind_Return.
    replace (Z.of_nat (List.length l) <? 3) with false
      by (symmetry; apply Z.ltb_ge; exact Hmin).
    rewrite raise_if_false, bind_Return.
    unfold PolygonService._validate_points, PolygonService.MAX_POINTS_COUNT.
    cbn [py_len py_iter]. rewrite bind_Return.
    replace (Z.of_nat (List.length l) >? max_points_count cfg) with false
      by (symmetry; rewrite Z.gtb_ltb; apply Z.ltb_ge; exact Hmax).
    rewrite raise_if_false, !bind_Return.
    apply for_each_all. eapply Forall_impl; [|exact Hacc].
    intros p. apply check_point_Return_iff.
Qed.

Lemma create_polygon_Return_inv (cfg : Settings) (db db' : Session)
      (nm : string) (pts : pyval) (p : Polygon) :
  PolygonService.create_polygon cfg db nm pts = (db', Return p) ->
  PolygonService.create_checks cfg nm pts = Return tt /\
  exists l, pts = VList l /\
            db' = db ++ [created_row db nm l] /\
            p = load (created_row db nm l).
Proof.
  intros H.
  assert (Hc : PolygonService.create_checks cfg nm pts = Return tt).
  { unfold PolygonService.create_polygon in H.
    destruct (PolygonService.create_checks cfg nm pts) as [[]|e];
      [reflexivity | discriminate]. }
  split; [exact Hc|].
  pose proof Hc as Hacc. apply create_checks_Return_iff in Hacc.
  destruct Hacc as (_ & _ & _ & l & -> & _).
  unfold PolygonService.create_polygon in H.
  rewrite Hc, save_new in H. inversion H; subst.
  exists l. auto.
Qed.



(** ** Invariant of the stored rows *)




(** ** Listing, lookup and count *)

Lemma find_all_key_sorted (db : Session) :
  key_sorted db -> PolygonRepository.find_all db = map load db.
Proof. intros H. unfold PolygonRepository.find_all. now rewrite scan_sorted. Qed.

Lemma find_by_id_key_sorted (db : Session) (i : Z) :
  key_sorted db ->
  PolygonRepository.find_by_id db i
  = hd_error (map load (filter (has_id i) db)).
Proof. intros H. unfold PolygonRepository.find_by_id. now rewrite scan_sorted. Qed.

Lemma filter_has_id_absent (db : Session) (i : Z) :
  existsb (has_id i) db = false -> filter (has_id i) db = [].
Proof.
  induction db as [|r t IH]; [reflexivity|].
  simpl. destruct (has_id i r); [discriminate|]. exact IH.
Qed.

(** [count] is the number of polygons [find_all] lists, whatever the
    table holds. *)
Lemma count_is_length_of_listing (db : Session) :
  PolygonRepository.count db
  = Z.of_nat (List.length (PolygonRepository.find_all db)).
Proof.
  unfold PolygonRepository.count, PolygonRepository.find_all.
  rewrite length_map. f_equal.
  symmetry. apply Permutation_length, scan_permutation.
Qed.





(** ** Creation and deletion seen through the listing *)

Lemma key_sorted_created (db : Session) (nm : string) (l : list pyval) :
  key_sorted db -> key_sorted (db ++ [created_row db nm l]).
Proof.
  intros H. apply key_sorted_snoc; [exact H|]. apply next_id_above.
Qed.

Lemma filter_has_id_above (db : Session) (n : Z) :
  Forall (fun r => row_id r < n) db -> filter (has_id n) db = [].
Proof.
  intros H. apply filter_has_id_absent. now apply key_above_fresh.
Qed.

(** X7.  After a successful creation the listing is the listing before it
    followed by the polygon returned, one more polygon is counted, a
    lookup of the new key finds that polygon, and the lookup of any
    other key finds what it found before.  The keys of the table ascend,
    as they do in every table the service builds. *)
Theorem create_extends_listing (cfg : Settings) (db db' : Session)
        (nm : string) (pts : pyval) (p : Polygon) :
  key_sorted db ->
  PolygonService.create_polygon cfg db nm pts = (db', Return p) ->
  PolygonRepository.find_all db' = PolygonRepository.find_all db ++ [p]
  /\ PolygonRepository.count db' = PolygonRepository.count db + 1
  /\ id p = Some (next_id db)
  /\ PolygonRepository.find_by_id db' (next_id db) = Some p
  /\ (forall j, j <> next_id db ->
                PolygonRepository.find_by_id db' j
                = PolygonRepository.find_by_id db j).
Proof.
  intros Hs H.
  destruct (create_polygon_Return_inv cfg db db' nm pts p H)
    as (_ & l & -> & -> & ->).
  pose proof (key_sorted_created db nm l Hs) as Hs'.
  split; [|split; [|split; [reflexivity|split]]].
  - rewrite (find_all_key_sorted _ Hs'), (find_all_key_sorted _ Hs).
    now rewrite map_app.
  - unfold PolygonRepository.count. rewrite length_app. simpl. lia.
  - rewrite (find_by_id_key_sorted _ _ Hs'), filter_app.
    rewrite (filter_has_id_above db (next_id db) (next_id_above db)).
    simpl. unfold has_id. simpl. now rewrite Z.eqb_refl.
  - intros j Hj.
    rewrite (find_by_id_key_sorted _ _ Hs'), (find_by_id_key_sorted _ _ Hs).
    rewrite filter_app. simpl. unfold has_id at 2. simpl.
    replace (next_id db =? j) with false
      by (symmetry; apply Z.eqb_neq; congruence).
    now rewrite List.app_nil_r.
Qed.

Lemma create_extends_listing_witness :
  PolygonRepository.find_all [created_row [] "P1" rectangle_points]
  = PolygonRepository.find_all [] ++ [load (created_row [] "P1" rectangle_points)]
  /\ PolygonRepository.count [created_row [] "P1" rectangle_points]
     = PolygonRepository.count [] + 1
  /\ id (load (created_row [] "P1" rectangle_points)) = Some (next_id [])
  /\ PolygonRepository.find_by_id [created_row [] "P1" rectangle_points]
                                  (next_id [])
     = Some (load (created_row [] "P1" rectangle_points))
  /\ (forall j, j <> next_id [] ->
                PolygonRepository.find_by_id
                  [created_row [] "P1" rectangle_points] j
                = PolygonRepository.find_by_id [] j).
Proof.
  apply (create_extends_listing settings [] _ "P1" (VList rectangle_points)).
  - constructor.
  - reflexivity.
Defined.








(** ** The checks on the points list *)


Lemma create_polygon_raises (cfg : Settings) (db : Session) (nm : string)
      (pts : pyval) (e : exn) :
  PolygonService.create_checks cfg nm pts = Raise e ->
  PolygonService.create_polygon cfg db nm pts = (db, Raise e).
Proof. intros H. unfold PolygonService.create_polygon. now rewrite H. Qed.






(** ** The request schema *)

Lemma validate_point_Return_iff (p : list pyfloat) :
  Schema.validate_point p = Return tt
  <-> exists x y, p = [x; y] /\ finite x /\ finite y.
Proof.
  split.
  - unfold Schema.validate_point. intros H.
    apply bind_Return_inv in H. destruct H as ([] & Hlen & H).
    apply raise_if_Return_inv, negb_false_iff, Nat.eqb_eq in Hlen.
    destruct p as [|x [|y [|? ?]]]; try discriminate.
    exists x, y. split; [reflexivity|].
    destruct x, y; try discriminate; split; exact I.
  - intros (x & y & -> & Hx & Hy).
    destruct x, y; try contradiction. reflexivity.
Qed.

Lemma schema_validate_Return_iff (r : CreatePolygonRequest) :
  Schema.validate r = Return tt <-> shape_ok r.
Proof.
  split.
  - unfold Schema.validate. intros H.
    apply bind_Return_inv in H. destruct H as ([] & H1 & H).
    apply raise_if_Return_inv, Z.ltb_ge in H1.
    apply bind_Return_inv in H. destruct H as ([] & H2 & H).
    apply raise_if_Return_inv in H2. rewrite Z.gtb_ltb in H2.
    apply Z.ltb_ge in H2.
    apply bind_Return_inv in H. destruct H as ([] & H3 & H).
    apply raise_if_Return_inv, Nat.ltb_ge in H3.
    apply bind_Return_inv in H. destruct H as (v & Hn & H).
    unfold Schema.validate_name in Hn.
    apply bind_Return_inv in Hn. destruct Hn as ([] & Hb & _).
    apply raise_if_Return_inv in Hb. rewrite blank_test in Hb.
    apply bind_Return_inv in H. destruct H as (v' & Hp & _).
    unfold Schema.validate_points in Hp.
    apply bind_Return_inv in Hp. destruct Hp as ([] & _ & Hp).
    apply bind_Return_inv in Hp. destruct Hp as ([] & _ & Hp).
    apply bind_Return_inv in Hp. destruct Hp as ([] & Hp & _).
    apply for_each_Return_inv in Hp.
    repeat split; try assumption; try lia.
    eapply Forall_impl; [|exact Hp]. intros p. apply validate_point_Return_iff.
  - intros (Hb & [Hl1 Hl2] & Hn & Hall). unfold Schema.validate.
    replace (len (req_name r) <? 1) with false
      by (symmetry; apply Z.ltb_ge; lia).
    rewrite raise_if_false, bind_Return.
    replace (len (req_name r) >? 255) with false
      by (symmetry; rewrite Z.gtb_ltb; apply Z.ltb_ge; lia).
    rewrite raise_if_false, bind_Return.
    assert (Hn3 : Nat.ltb (List.length (req_points r)) 3 = false)
      by (apply Nat.ltb_ge; lia).
    rewrite Hn3, raise_if_false, bind_Return.
    unfold Schema.validate_name. rewrite blank_test, Hb.
    replace (len (req_name r) >? 255) with false
      by (symmetry; rewrite Z.gtb_ltb; apply Z.ltb_ge; lia).
    rewrite !raise_if_false, !bind_Return.
    unfold Schema.validate_points. rewrite Hn3.
    replace (Nat.eqb (List.length (req_points r)) 0) with false
      by (symmetry; apply Nat.eqb_neq; lia).
    rewrite !raise_if_false, !bind_Return.
    rewrite for_each_all; [reflexivity|].
    eapply Forall_impl; [|exact Hall].
    intros p. apply validate_point_Return_iff.
Qed.

(** A computation that ends normally or with a [ValueError]. *)
Lemma raise_if_value_error (c : bool) (msg : string) :
  raise_if c (ValueError msg) = Return tt \/
  exists m, raise_if c (ValueError msg) = Raise (ValueError m).
Proof. destruct c; simpl; eauto. Qed.

Lemma for_each_value_error {A : Type} (body : A -> result unit)
      (l : list A) :
  (forall x, body x = Return tt \/ exists m, body x = Raise (ValueError m)) ->
  for_each body l = Return tt \/
  exists m, for_each body l = Raise (ValueError m).
Proof.
  intros Hb. induction l as [|x l IH]; simpl; [now left|].
  destruct (Hb x) as [-> | [m ->]]; simpl; eauto.
Qed.

Lemma schema_validate_value_error (r : CreatePolygonRequest) :
  Schema.validate r = Return tt \/
  exists m, Schema.validate r = Raise (ValueError m).
Proof.
  unfold Schema.validate, Schema.validate_name, Schema.validate_points.
  repeat match goal with
         | |- context [raise_if ?c (ValueError ?m)] =>
             destruct c; simpl; eauto
         end.
  destruct (for_each_value_error Schema.validate_point (req_points r))
    as [-> | [m ->]]; simpl; eauto.
  intros p. unfold Schema.validate_point.
  destruct (negb _); simpl; eauto.
  apply for_each_value_error. intros x. unfold Schema.validate_coord.
  destruct (Schema.is_nan x), (Schema.is_inf x); simpl; eauto.
Qed.

(** X12.  A request that has not the shape the schema asks for -- a name of
    1 to 255 characters that is not blank once trimmed, and three points
    or more, each a pair of finite floats -- is refused by the schema
    with a [ValueError], answered 422 with its message, and nothing is
    stored, whatever the configuration. *)
Theorem schema_refusal_is_422 (cfg : Settings) (db : Session)
        (r : CreatePolygonRequest) :
  ~ shape_ok r ->
  exists m,
    Schema.validate r = Raise (ValueError m) /\
    Controller.POST_polygons cfg r db
    = (db, Controller.mkResponse 422 (Controller.Detail m)).
Proof.
  intros Hn. unfold Controller.POST_polygons.
  destruct (schema_validate_value_error r) as [H | [m H]].
  - apply schema_validate_Return_iff in H. contradiction.
  - exists m. now rewrite H.
Qed.

Lemma schema_refusal_is_422_witness :
  exists m,
    Schema.validate (mkRequest "P1" (firstn 2 rectangle))
    = Raise (ValueError m) /\
    Controller.POST_polygons settings (mkRequest "P1" (firstn 2 rectangle)) []
    = ([], Controller.mkResponse 422 (Controller.Detail m)).
Proof.
  apply (schema_refusal_is_422 settings []
           (mkRequest "P1" (firstn 2 rectangle))).
  intros (_ & _ & H & _). simpl in H. lia.
Defined.

(** ** The outcomes of a POST *)











(** ** What a POST never does *)






(** ** A negative delay *)



(** ** The column type on nested lists *)

Module Nested.

Import Json Roundtrip.









End Nested.



(** ** Points that are not a sequence *)

(** X5.  The first log line of [create_polygon] takes [len(points)] of any
    points that are true: for points that are a number other than zero
    -- a value without [len] -- it raises [TypeError] before the delay
    and before the name is looked at, whatever the name and the
    configuration, and nothing is stored. *)
Theorem number_as_points_is_type_error (cfg : Settings) (db : Session)
        (nm : string) (pts : pyval) :
  number_of pts <> None -> truthy pts = true ->
  PolygonService.create_polygon cfg db nm pts
  = (db, Raise (TypeError no_len)).
Proof.
  intros Hn Ht. apply create_polygon_raises.
  unfold PolygonService.create_checks. rewrite Ht.
  destruct pts; simpl in Hn; try congruence; reflexivity.
Qed.

Lemma number_as_points_is_type_error_witness :
  PolygonService.create_polygon settings [] "   " (VInt 5)
  = ([], Raise (TypeError no_len)).
Proof.
  apply (number_as_points_is_type_error settings [] "   " (VInt 5)).
  - discriminate.
  - reflexivity.
Defined.
